(** * tupak: likelihoods and detector-geometry utilities

    A shallow embedding of [tupak/core/likelihood.py] and of the numeric
    part of [tupak/gw/utils.py], with the properties stated about them.

    Conventions of the embedding.
    - A Python float is a real number: the arithmetic is exact.  The
      only place where the IEEE special values matter to a statement is
      [np.nan_to_num], which is embedded over [spec_float].
    - A call either returns a value or raises: [py A].
    - [logging.warning] appends a line to an explicit log.
    - A dict is a [gmap]; the Python value [None] is [PyNone].
    - The module is Python 2 code ([dict.values()[0]], [dict.keys()] as a
      list, [min] of a number and [None]): the embedding follows Python 2
      where the versions differ, and says so at each place. *)

From Stdlib Require Import Reals Lra RNsatz.
From Stdlib Require Import Ascii String Floats.SpecFloat.
From stdpp Require Import gmap strings list.

Open Scope R_scope.

(** ** Outcomes of a Python call *)

Inductive exn : Type :=
| TypeError (msg : string)
| ValueError (msg : string)
| IndexError (msg : string)
| KeyError (msg : string)
| AttributeError (msg : string)
| ZeroDivisionError (msg : string).

Inductive py (A : Type) : Type :=
| Return (a : A)
| Raise (e : exn).
Arguments Return {A} a.
Arguments Raise {A} e.

(** Sequencing: the first exception raised ends the computation.  The
    notation [x ← c; k] is the one of the monad classes. *)
#[global] Instance py_ret : MRet py := fun A a => Return a.
#[global] Instance py_bind : MBind py := fun A B k c =>
  match c with
  | Return a => k a
  | Raise e => Raise e
  end.

Definition raised {A} (c : py A) : bool :=
  match c with
  | Return _ => false
  | Raise _ => true
  end.

(** ** One-dimensional numpy arrays

    An elementwise operation on two arrays follows numpy's broadcasting
    rule for one dimension: an operand of length one is stretched, equal
    lengths are combined index by index, anything else is a [ValueError]. *)

Definition broadcast {A B C} (f : A -> B -> C) (a : list A) (b : list B)
    : py (list C) :=
  match a, b with
  | [x], _ => Return (map (f x) b)
  | _, [y] => Return (map (fun x => f x y) a)
  | _, _ =>
      if decide (length a = length b) then Return (zip_with f a b)
      else Raise (ValueError "operands could not be broadcast together")
  end.

(** The lengths for which [broadcast] returns. *)
Definition broadcastable (n m : nat) : Prop :=
  n = m \/ n = 1%nat \/ m = 1%nat.

(** [np.sum] of an array of floats. *)
Definition np_sum (l : list R) : R := foldr Rplus 0 l.

(** Complex numbers, as numpy's [complex128] read over the reals. *)
Record complex : Type := Cplx { Re : R; Im : R }.

Definition cconj (z : complex) : complex := Cplx (Re z) (- Im z).
Definition cadd (z w : complex) : complex :=
  Cplx (Re z + Re w) (Im z + Im w).
Definition cmul (z w : complex) : complex :=
  Cplx (Re z * Re w - Im z * Im w) (Re z * Im w + Im z * Re w).
(** A complex number divided by a float, and a float times a complex
    number. *)
Definition cdiv_real (z : complex) (p : R) : complex :=
  Cplx (Re z / p) (Im z / p).
Definition cscale (k : R) (z : complex) : complex :=
  Cplx (k * Re z) (k * Im z).
(** [np.sum] of a complex array. *)
Definition np_csum (l : list complex) : complex := foldr cadd (Cplx 0 0) l.

(** ** Three-vectors and 3x3 tensors (numpy arrays of fixed shape) *)

Definition vec3 : Type := R * R * R.
Definition mat3 : Type := vec3 * vec3 * vec3.

(** [k * a] for a scalar [k] and an array [a]. *)
Definition vscale (k : R) (a : vec3) : vec3 :=
  let '(a0, a1, a2) := a in (k * a0, k * a1, k * a2).
(** [a * k] for an array [a] and a scalar [k]. *)
Definition vtimes (a : vec3) (k : R) : vec3 :=
  let '(a0, a1, a2) := a in (a0 * k, a1 * k, a2 * k).
Definition vneg (a : vec3) : vec3 :=
  let '(a0, a1, a2) := a in (- a0, - a1, - a2).
Definition vadd (a b : vec3) : vec3 :=
  let '(a0, a1, a2) := a in let '(b0, b1, b2) := b in
  (a0 + b0, a1 + b1, a2 + b2).
Definition vsub (a b : vec3) : vec3 :=
  let '(a0, a1, a2) := a in let '(b0, b1, b2) := b in
  (a0 - b0, a1 - b1, a2 - b2).
(** [np.dot] of two 1-d arrays of length 3. *)
Definition dot (a b : vec3) : R :=
  let '(a0, a1, a2) := a in let '(b0, b1, b2) := b in
  a0 * b0 + a1 * b1 + a2 * b2.
(** [np.cross]. *)
Definition cross (a b : vec3) : vec3 :=
  let '(a0, a1, a2) := a in let '(b0, b1, b2) := b in
  (a1 * b2 - a2 * b1, a2 * b0 - a0 * b2, a0 * b1 - a1 * b0).
(** [np.einsum('i,j->ij', a, b)]: the outer product. *)
Definition einsum_ij (a b : vec3) : mat3 :=
  let '(a0, a1, a2) := a in (vscale a0 b, vscale a1 b, vscale a2 b).
Definition madd (s t : mat3) : mat3 :=
  let '(s0, s1, s2) := s in let '(t0, t1, t2) := t in
  (vadd s0 t0, vadd s1 t1, vadd s2 t2).
Definition msub (s t : mat3) : mat3 :=
  let '(s0, s1, s2) := s in let '(t0, t1, t2) := t in
  (vsub s0 t0, vsub s1 t1, vsub s2 t2).
Definition mscale (k : R) (t : mat3) : mat3 :=
  let '(t0, t1, t2) := t in (vscale k t0, vscale k t1, vscale k t2).
Definition transpose (t : mat3) : mat3 :=
  let '((a00, a01, a02), (a10, a11, a12), (a20, a21, a22)) := t in
  ((a00, a10, a20), (a01, a11, a21), (a02, a12, a22)).
Definition trace (t : mat3) : R :=
  let '((a00, _, _), (_, a11, _), (_, _, a22)) := t in a00 + a11 + a22.

(** ** Strings: [str.lower] on byte strings *)

Definition ascii_lower (c : ascii) : ascii :=
  let n := nat_of_ascii c in
  if ((65 <=? n)%nat && (n <=? 90)%nat)%bool then ascii_of_nat (n + 32) else c.

Fixpoint lower (s : string) : string :=
  match s with
  | EmptyString => EmptyString
  | String c s' => String (ascii_lower c) (lower s')
  end.

(** ** [tupak/gw/utils.py] *)

(** The names imported from [tupak.core.utils], which is not part of the
    sources at hand: they are parameters of everything below. *)
Record core_utils : Type := {
  gps_time_to_gmst : R -> R;
  ra_dec_to_theta_phi : R -> R -> R -> R * R;
  speed_of_light : R
}.

Section GwUtils.
Variable U : core_utils.

Definition time_delay_geocentric (detector1 detector2 : vec3)
    (ra dec time : R) : R :=
  let gmst := gps_time_to_gmst U time in
  let '(theta, phi) := ra_dec_to_theta_phi U ra dec gmst in
  let omega := (sin theta * cos phi, sin theta * sin phi, cos theta) in
  let delta_d := vsub detector2 detector1 in
  dot omega delta_d / speed_of_light U.

(** The wave-frame basis [(m, n)] computed at the head of
    [get_polarization_tensor]. *)
Definition wave_frame (ra dec time psi : R) : vec3 * vec3 :=
  let greenwich_mean_sidereal_time := gps_time_to_gmst U time in
  let '(theta, phi) :=
    ra_dec_to_theta_phi U ra dec greenwich_mean_sidereal_time in
  let u := (cos phi * cos theta, cos theta * sin phi, - sin theta) in
  let v := (- sin phi, cos phi, 0) in
  let m := vsub (vtimes (vneg u) (sin psi)) (vtimes v (cos psi)) in
  let n := vadd (vtimes (vneg u) (cos psi)) (vtimes v (sin psi)) in
  (m, n).

(** The result is the log written by [logging.warning] and the outcome
    of the call; the returned value is [Some] tensor or Python's [None]. *)
Definition get_polarization_tensor (ra dec time psi : R) (mode : string)
    : list string * py (option mat3) :=
  let '(m, n) := wave_frame ra dec time psi in
  if String.eqb (lower mode) "plus" then
    ([], Return (Some (msub (einsum_ij m m) (einsum_ij n n))))
  else if String.eqb (lower mode) "cross" then
    ([], Return (Some (madd (einsum_ij m n) (einsum_ij n m))))
  else if String.eqb (lower mode) "breathing" then
    ([], Return (Some (madd (einsum_ij m m) (einsum_ij n n))))
  else
    let omega := cross m n in
    if String.eqb (lower mode) "longitudinal" then
      ([], Return (Some (mscale (sqrt 2) (einsum_ij omega omega))))
    else if String.eqb (lower mode) "x" then
      ([], Return (Some (madd (einsum_ij m omega) (einsum_ij omega m))))
    else if String.eqb (lower mode) "y" then
      ([], Return (Some (madd (einsum_ij n omega) (einsum_ij omega n))))
    else
      ([mode +:+ " not a polarization mode!"], Return None).
End GwUtils.

(** The attributes of [tupak.gw.detector.Interferometer] that the
    signal-to-noise functions read. *)
Record Interferometer : Type := {
  frequency_domain_strain : list complex;
  power_spectral_density_array : list R
}.

(** [aa] is the array that is conjugated.  [time_duration] is a Python
    float, as the docstring has it, so [4 / time_duration] raises when
    it is zero; the integrand is built before that division is reached. *)
Definition noise_weighted_inner_product (aa bb : list complex)
    (power_spectral_density : list R) (time_duration : R) : py complex :=
  numerator ← broadcast cmul (map cconj aa) bb;
  integrand ← broadcast cdiv_real numerator power_spectral_density;
  if Req_EM_T time_duration 0
  then Raise (ZeroDivisionError "float division by zero")
  else Return (cscale (4 / time_duration) (np_csum integrand)).

Definition matched_filter_snr_squared (signal : list complex)
    (interferometer : Interferometer) (time_duration : R) : py complex :=
  noise_weighted_inner_product
    signal (frequency_domain_strain interferometer)
    (power_spectral_density_array interferometer) time_duration.

Definition optimal_snr_squared (signal : list complex)
    (interferometer : Interferometer) (time_duration : R) : py complex :=
  noise_weighted_inner_product signal signal
    (power_spectral_density_array interferometer) time_duration.

(** A two-bin signal and a detector that has recorded exactly it. *)
Definition example_signal : list complex := [Cplx 1 2; Cplx 0 (-1)].
Definition example_detector : Interferometer :=
  {| frequency_domain_strain := example_signal;
     power_spectral_density_array := [2; 4] |}.

(** An instance of the imported names, to run the functions on concrete
    inputs: the colatitude and the hour angle for
    [ra_dec_to_theta_phi], the identity for [gps_time_to_gmst]. *)
Definition example_core_utils : core_utils := {|
  gps_time_to_gmst := fun time => time;
  ra_dec_to_theta_phi := fun ra dec gmst => (PI / 2 - dec, ra - gmst);
  speed_of_light := 299792458
|}.

(** The six mode names the function knows. *)
Definition polarization_modes : list string :=
  ["plus"; "cross"; "breathing"; "longitudinal"; "x"; "y"].

(** ** [tupak/gw/utils.py]: the remaining numeric functions *)

(** [semi_major_axis] and [semi_minor_axis] of the Earth ellipsoid, in
    metres, as [get_vertex_position_geocentric] has them. *)
Definition semi_major_axis : R := 6378137.
Definition semi_minor_axis : R := 6356752.314.

(** [**(-0.5)] is the real power; its base here is a sum of squares
    weighted by the two positive axes. *)
Definition get_vertex_position_geocentric (latitude longitude elevation : R)
    : vec3 :=
  let radius :=
    semi_major_axis ^ 2
    * Rpower (semi_major_axis ^ 2 * cos latitude ^ 2
              + semi_minor_axis ^ 2 * sin latitude ^ 2) (- 0.5) in
  let x_comp := (radius + elevation) * cos latitude * cos longitude in
  let y_comp := (radius + elevation) * cos latitude * sin longitude in
  let z_comp :=
    ((semi_minor_axis / semi_major_axis) ^ 2 * radius + elevation)
    * sin latitude in
  (x_comp, y_comp, z_comp).

(** [np.absolute] of a complex number. *)
Definition cabs (z : complex) : R := sqrt (Re z * Re z + Im z * Im z).

(** [df ** 0.5] for a Python float (the docstrings give [df] as a
    float): a negative base is refused. *)
Definition float_sqrt (df : R) : py R :=
  if Rlt_dec df 0
  then Raise (ValueError
                "negative number cannot be raised to a fractional power")
  else Return (sqrt df).

Definition asd_from_freq_series (freq_data : list complex) (df : R)
    : py (list R) :=
  let doubled := map (fun a => a * 2) (map cabs freq_data) in
  root ← float_sqrt df;
  Return (map (fun a => a * root) doubled).

Definition psd_from_freq_series (freq_data : list complex) (df : R)
    : py (list R) :=
  asd ← asd_from_freq_series freq_data df;
  Return (map (fun a => a ^ 2) asd).

(** The method of [tupak.gw.detector.PowerSpectralDensity] that
    [inner_product] calls; the class is not part of the sources at hand. *)
Record PowerSpectralDensity : Type := {
  power_spectral_density_interpolated : list R -> py (list R)
}.

(** A complex number times a float. *)
Definition ctimes_real (z : complex) (k : R) : complex :=
  Cplx (Re z * k) (Im z * k).

(** [frequency[1] - frequency[0]] needs two entries, and is reached
    after the integrand has been built. *)
Definition inner_product (aa bb : list complex) (frequency : list R)
    (PSD : PowerSpectralDensity) : py R :=
  PSD_interp ← power_spectral_density_interpolated PSD frequency;
  numerator ← broadcast cmul (map cconj aa) bb;
  integrand ← broadcast cdiv_real numerator PSD_interp;
  match frequency with
  | f0 :: f1 :: _ =>
      let df := f1 - f0 in
      let integral := ctimes_real (np_csum integrand) df in
      Return (4 * Re integral)
  | _ => Raise (IndexError "index 1 is out of bounds")
  end.

(** A PSD object that is flat at [2], for running [inner_product]. *)
Definition example_psd : PowerSpectralDensity :=
  {| power_spectral_density_interpolated :=
       fun frequency => Return (map (fun _ => 2) frequency) |}.

(** ** [tupak/gw/utils.py]: event times and frame files *)

(** The dict [event_times] of [get_event_time]. *)
Definition event_times : gmap string R :=
  list_to_map
    [("150914", 1126259462.422); ("151012", 1128678900.4443);
     ("151226", 1135136350.65); ("170104", 1167559936.5991);
     ("170608", 1180922494.4902); ("170814", 1186741861.5268);
     ("170817", 1187008882.4457)].

(** [event[-6:]]: the last six characters, or all of a shorter string. *)
Definition last_six (event : string) : string :=
  substring (String.length event - 6) 6 event.

(** The truth value of a string, and [needle in hay]. *)
Definition str_truthy (s : string) : bool := negb (String.eqb s "").
Definition str_in (needle hay : string) : bool :=
  match index 0 needle hay with
  | Some _ => true
  | None => false
  end.

(** The result is what was printed and the value returned.  The test
    of the first [if] is ['GW' or ('LVT' in event)]. *)
Definition get_event_time (event : string) : list string * option R :=
  let event :=
    if (str_truthy "GW" || str_in "LVT" event)%bool
    then last_six event else event in
  match event_times !! last_six event with
  | Some event_time => ([], Some event_time)
  | None => (["Unknown event " +:+ event +:+ "."], None)
  end.

(** A record of the [logging] module. *)
Inductive log_record : Type :=
| INFO (msg : string)
| WARNING (msg : string).

(** What [TimeSeries.read] may do: return the strain, raise the
    [RuntimeError] that [read_frame_file] catches, or raise something
    else. *)
Inductive read_result (S : Type) : Type :=
| ReadOk (strain : S)
| ReadRuntimeError
| ReadFails (e : exn).
Arguments ReadOk {S} strain.
Arguments ReadRuntimeError {S}.
Arguments ReadFails {S} e.

(** The channel names of the two nested loops, in the order they are
    tried. *)
Definition preset_channels : list string :=
  channel_type ← ["GDS-CALIB_STRAIN"; "DCS-CALIB_STRAIN_C01";
                  "DCS-CALIB_STRAIN_C02"];
  ifo_name ← ["H1"; "L1"];
  [ifo_name +:+ ":" +:+ channel_type].

Section ReadFrameFile.
(** The strain type of gwpy, and [TimeSeries.read] as a function of the
    file name, the channel, the start and the end. *)
Variable S : Type.
Variable read : string -> string -> R -> R -> read_result S.

(** The nested loops over the preset channels. *)
Fixpoint preset_loop (file_name : string) (t1 t2 buffer_time : R)
    (channels : list string) (loaded : bool) (strain : option S)
    (log : list log_record) : list log_record * py (bool * option S) :=
  match channels with
  | [] => (log, Return (loaded, strain))
  | channel :: channels' =>
      if loaded
      then preset_loop file_name t1 t2 buffer_time channels' loaded strain log
      else
        match read file_name channel (t1 - buffer_time) (t2 + buffer_time)
        with
        | ReadOk s =>
            preset_loop file_name t1 t2 buffer_time channels' true (Some s)
              (log ++ [INFO ("Successfully loaded " +:+ channel +:+ ".")])
        | ReadRuntimeError =>
            preset_loop file_name t1 t2 buffer_time channels' false strain log
        | ReadFails e => (log, Raise e)
        end
  end.

(** [channel] is [None] when the argument is left out.  The result is
    the log and the outcome; the value returned is the strain or [None]. *)
Definition read_frame_file (file_name : string) (t1 t2 : R)
    (channel : option string) (buffer_time : R)
    : list log_record * py (option S) :=
  let first_try : list log_record * py (bool * option S) :=
    match channel with
    | None => ([], Return (false, None))
    | Some c =>
        match read file_name c t1 t2 with
        | ReadOk s =>
            ([INFO ("Successfully loaded " +:+ c +:+ ".")],
             Return (true, Some s))
        | ReadRuntimeError =>
            ([WARNING ("Channel " +:+ c
                       +:+ " not found. Trying preset channel names")],
             Return (false, None))
        | ReadFails e => ([], Raise e)
        end
    end in
  match first_try with
  | (log, Raise e) => (log, Raise e)
  | (log, Return (loaded, strain)) =>
      match preset_loop file_name t1 t2 buffer_time preset_channels
              loaded strain log with
      | (log, Raise e) => (log, Raise e)
      | (log, Return (true, strain)) => (log, Return strain)
      | (log, Return (false, _)) =>
          (log ++ [WARNING "No data loaded."], Return None)
      end
  end.
End ReadFrameFile.

(** A frame file that holds the single channel [L1:GDS-CALIB_STRAIN]. *)
Definition example_read (file_name channel : string) (start stop : R)
    : read_result nat :=
  if String.eqb channel "L1:GDS-CALIB_STRAIN" then ReadOk 7%nat
  else ReadRuntimeError.

(** What [get_open_strain_data] does to the outside world, in order. *)
Inductive io_event : Type :=
| Log (msg : string)
| ReadFile (path : string)
| FetchOpenData (name : string) (t1 t2 : R)
| WriteFile (path : string).

Section OpenStrainData.
(** The strain type of gwpy and the calls made on it; [str] is Python's
    formatting of a float, [isfile] is [os.path.isfile].  The keyword
    arguments passed on to [fetch_open_data] are part of
    [fetch_open_data]. *)
Variable S : Type.
Variable TimeSeries_read : string -> py S.
Variable first_time last_time : S -> R.
Variable crop : S -> R -> R -> py S.
Variable fetch_open_data : string -> R -> R -> py S.
Variable write : S -> string -> py unit.
Variable isfile : string -> bool.
Variable str : R -> string.

(** The events so far are kept when a call raises. *)
Definition get_open_strain_data (name : string) (t1 t2 : R)
    (outdir : string) (cache : bool) (raw_data_file : option string)
    : list io_event * py S :=
  let filename :=
    outdir +:+ "/" +:+ name +:+ "_" +:+ str t1 +:+ "_" +:+ str t2
    +:+ ".txt" in
  match raw_data_file with
  | Some raw =>
      let trace := [Log ("Using raw_data_file " +:+ raw); ReadFile raw] in
      match TimeSeries_read raw with
      | Raise e => (trace, Raise e)
      | Return strain =>
          let refused :=
            (trace,
             Raise (ValueError
                      "Supplied file does not contain requested data")) in
          if Rgt_dec t1 (first_time strain)
          then
            if Rlt_dec t2 (last_time strain)
            then (trace ++ [Log "Using supplied raw data file"],
                  crop strain t1 t2)
            else refused
          else refused
      end
  | None =>
      if (isfile filename && cache)%bool
      then ([Log ("Using cached data from " +:+ filename);
             ReadFile filename],
            TimeSeries_read filename)
      else
        let trace := [Log "Fetching open data ...";
                      FetchOpenData name t1 t2] in
        match fetch_open_data name t1 t2 with
        | Raise e => (trace, Raise e)
        | Return strain =>
            let trace :=
              trace ++ [Log ("Saving data to " +:+ filename);
                        WriteFile filename] in
            match write strain filename with
            | Raise e => (trace, Raise e)
            | Return _ => (trace, Return strain)
            end
        end
  end.
End OpenStrainData.

(** ** [tupak/core/likelihood.py]: values *)

(** What a parameter, a noise scale or the result of a numpy expression
    may be: Python's [None], a float, or a one-dimensional array. *)
Inductive value : Type :=
| PyNone
| Float (r : R)
| Array (l : list R).

(** A binary numpy operation, with broadcasting; [None] is no operand. *)
Definition np_binop (f : R -> R -> R) (a b : value) : py value :=
  match a, b with
  | Float p, Float q => Return (Float (f p q))
  | Float p, Array l => Return (Array (map (f p) l))
  | Array l, Float q => Return (Array (map (fun p => f p q) l))
  | Array l1, Array l2 => l ← broadcast f l1 l2; Return (Array l)
  | _, _ => Raise (TypeError "unsupported operand type(s)")
  end.

(** An elementwise numpy function ([np.log], [** 2]). *)
Definition np_unop (f : R -> R) (a : value) : py value :=
  match a with
  | Float p => Return (Float (f p))
  | Array l => Return (Array (map f l))
  | PyNone => Raise (TypeError "unsupported operand type(s)")
  end.

(** [np.sum] with no axis: a scalar is its own sum. *)
Definition np_sum_value (a : value) : py value :=
  match a with
  | Float p => Return (Float p)
  | Array l => Return (Float (np_sum l))
  | PyNone => Raise (TypeError "unsupported operand type(s)")
  end.

(** A Python function as the likelihood sees it: the argument names
    reported by [inspect.getargspec(function).args], and the body, which
    receives the first argument and the keyword arguments. *)
Record pyfunction : Type := {
  args : list string;
  body : list R -> gmap string value -> py value
}.

(** [function(x, **kwargs)] for a function without defaults or starred
    arguments: the keywords must be the argument names after the first. *)
Definition call (function : pyfunction) (x : list R)
    (kwargs : gmap string value) : py value :=
  match args function with
  | [] => Raise (TypeError "function takes no arguments")
  | first :: rest =>
      if decide (first ∈ dom kwargs)
      then Raise (TypeError "got multiple values for argument")
      else if decide (dom kwargs = list_to_set rest)
      then body function x kwargs
      else Raise (TypeError "unexpected or missing keyword argument")
  end.

(** [dict.fromkeys(keys)]: every key bound to [None]. *)
Definition dict_fromkeys (keys : list string) : gmap string value :=
  list_to_map ((fun k => (k, PyNone)) <$> keys).

(** [d.keys()] in Python 2: a list, made when it is called, that later
    insertions into [d] do not reach; its order is not specified. *)
Definition dict_keys (d : gmap string value) : list string :=
  elements (dom d).

(** [{k: d[k] for k in keys}]; [d[k]] raises for a missing key. *)
Fixpoint dict_comprehension (keys : list string) (d : gmap string value)
    : py (gmap string value) :=
  match keys with
  | [] => Return ∅
  | k :: keys' =>
      match d !! k with
      | Some v => m ← dict_comprehension keys' d; Return (<[k := v]> m)
      | None => Raise (KeyError k)
      end
  end.

Module GaussianLikelihood.

Record t : Type := {
  x : list R;
  y : list R;
  N : nat;
  sigma : value;
  function : pyfunction;
  parameters : gmap string value;
  function_keys : list string
}.

(** [sigma] is [PyNone] when the argument is left out. *)
Definition __init__ (x y : list R) (function : pyfunction)
    (sigma : value) : py t :=
  match args function with
  | [] => Raise (IndexError "pop from empty list")
  | _ :: parameters =>
      let self_parameters := dict_fromkeys parameters in
      let function_keys := dict_keys self_parameters in
      Return {|
        x := x; y := y; N := length x; sigma := sigma;
        function := function;
        parameters :=
          match sigma with
          | PyNone => <["sigma" := PyNone]> self_parameters
          | _ => self_parameters
          end;
        function_keys := function_keys
      |}
  end.

(** What the sampler does between two evaluations:
    [likelihood.parameters[key] = v]. *)
Definition set_parameter (self : t) (key : string) (v : value) : t :=
  {| x := x self; y := y self; N := N self; sigma := sigma self;
     function := function self;
     parameters := <[key := v]> (parameters self);
     function_keys := function_keys self |}.

Definition log_likelihood (self : t) : py value :=
  let sigma := default (sigma self) (parameters self !! "sigma") in
  model_parameters ←
    dict_comprehension (function_keys self) (parameters self);
  fx ← call (function self) (x self) model_parameters;
  res ← np_binop Rminus (Array (y self)) fx;
  scaled ← np_binop Rdiv res sigma;
  squares ← np_unop (fun r => r ^ 2) scaled;
  total ← np_sum_value squares;
  sigma2 ← np_unop (fun r => r ^ 2) sigma;
  arg ← np_binop Rmult (Float (2 * PI)) sigma2;
  logs ← np_unop ln arg;
  norm ← np_binop Rmult (Float (INR (N self))) logs;
  inner ← np_binop Rplus total norm;
  np_binop Rmult (Float (- 0.5)) inner.

End GaussianLikelihood.

(** The log-likelihood as the specification words it, for the residuals
    [r], a scalar [sigma] and [N] data points. *)
Definition spec_gaussian_log_likelihood (r : list R) (sigma : R) (N : nat)
    : R :=
  - 0.5 * (np_sum (map (fun ri => (ri / sigma) ^ 2) r)
           + INR N * ln (2 * PI * sigma ^ 2)).

(** The linear model [f(x, m, c) = m * x + c], and the likelihood of
    the data [x = y = [0, 1, 2]] with the noise scale fixed to [1], after
    the sampler has set [m = 1] and [c = 0]. *)
Definition linear_model : pyfunction := {|
  args := ["x"; "m"; "c"];
  body := fun x kwargs =>
    match kwargs !! "m", kwargs !! "c" with
    | Some m, Some c => mx ← np_binop Rmult m (Array x); np_binop Rplus mx c
    | _, _ => Raise (TypeError "missing argument")
    end
|}.

Definition example_gaussian : py GaussianLikelihood.t :=
  self ← GaussianLikelihood.__init__ [0; 1; 2] [0; 1; 2] linear_model
           (Float 1);
  Return (GaussianLikelihood.set_parameter
            (GaussianLikelihood.set_parameter self "m" (Float 1))
            "c" (Float 0)).

(** ** IEEE doubles

    The hyper-parameter likelihood is the one place where not-a-number
    and the infinities are part of what is stated, so its numbers are
    binary64 floats: [spec_float] at precision 53 and exponent bound
    1024. *)

Definition float : Type := spec_float.
Definition prec : Z := 53.
Definition emax : Z := 1024.

Definition fadd : float -> float -> float := SFadd prec emax.
Definition fmul : float -> float -> float := SFmul prec emax.
Definition fdiv : float -> float -> float := SFdiv prec emax.
Definition fzero : float := S754_zero false.
(** The float nearest to an integer. *)
Definition float_of_Z (z : Z) : float := binary_normalize prec emax z 0 false.

Definition is_finite (x : float) : bool :=
  match x with
  | S754_zero _ | S754_finite _ _ _ => true
  | S754_infinity _ | S754_nan => false
  end.

(** [np.nan_to_num] on a scalar: not-a-number becomes zero, an infinity
    becomes the largest double of its sign, anything else is kept. *)
Definition nan_to_num (x : float) : float :=
  match x with
  | S754_nan => fzero
  | S754_infinity false => SFmax_float prec emax
  | S754_infinity true => SFopp (SFmax_float prec emax)
  | _ => x
  end.

(** [np.sum] of a float array, [np.sum(..., axis=-1)] of a 2-d array, and
    [np.sum] of all its entries; the terms are added from left to right. *)
Definition np_fsum (l : list float) : float := foldl fadd fzero l.
Definition np_fsum_last_axis (a : list (list float)) : list float :=
  map np_fsum a.

(** The outcomes of a list of calls, in order. *)
Definition sequence {A} (l : list (py A)) : py (list A) :=
  foldr (fun c acc => x ← c; xs ← acc; Return (x :: xs)) (Return []) l.

(** An elementwise operation on two 2-d arrays. *)
Definition broadcast2 {A B C} (f : A -> B -> C)
    (a : list (list A)) (b : list (list B)) : py (list (list C)) :=
  rows ← broadcast (broadcast f) a b; sequence rows.

(** [np.shape] of a 2-d array given as a list of rows. *)
Definition np_shape {A} (a : list (list A)) : list nat :=
  match a with
  | [] => [0%nat]
  | row :: _ => [length a; length row]
  end.

Definition py_min (l : list nat) : nat :=
  match l with
  | [] => 0%nat
  | n :: l' => foldl Nat.min n l'
  end.
Definition py_max (l : list nat) : nat := foldl Nat.max 0%nat l.

(** ** Posterior sample sets: the part of [pandas.DataFrame] in use *)

Record DataFrame : Type := {
  columns : list string;
  rows : list (list float)
}.

(** [len(posterior)]. *)
Definition len (posterior : DataFrame) : nat := length (rows posterior).

(** The position of a column. *)
Fixpoint column_index (key : string) (columns : list string) : option nat :=
  match columns with
  | [] => None
  | c :: columns' =>
      if String.eqb c key then Some 0%nat
      else S <$> column_index key columns'
  end.

(** [posterior[key]]: the values of one column. *)
Definition getitem (posterior : DataFrame) (key : string) : py (list float) :=
  match column_index key (columns posterior) with
  | Some j => Return (map (fun row => nth j row fzero) (rows posterior))
  | None => Raise (KeyError key)
  end.

(** What [max_samples] may be: [None], an int, or a float (the default
    of the constructor is [1e100]). *)
Inductive cap : Type :=
| NoCap
| IntCap (n : nat)
| FloatCap (f : float).

(** [min(n, max_samples)] in Python 2, where [None] is smaller than any
    number: the second argument is returned when it is smaller than the
    first.  (Python 3 refuses to compare an int with [None].) *)
Definition py2_min (n : nat) (max_samples : cap) : cap :=
  match max_samples with
  | NoCap => NoCap
  | IntCap m => if (m <? n)%nat then IntCap m else IntCap n
  | FloatCap f =>
      if SFltb f (float_of_Z (Z.of_nat n)) then FloatCap f else IntCap n
  end.

(** [k] rows drawn without replacement; [pick] is the random source. *)
Fixpoint choose {A} (k : nat) (pool : list A) (pick : nat -> nat) : list A :=
  match k with
  | O => []
  | S k' =>
      match pool with
      | [] => []
      | row :: _ =>
          let i := (pick k' mod length pool)%nat in
          nth i pool row :: choose k' (delete i pool) pick
      end
  end.

(** [posterior.sample(n)]: pandas draws one row when [n] is [None],
    refuses a sample larger than the frame, and wants an int. *)
Definition sample (posterior : DataFrame) (n : cap) (pick : nat -> nat)
    : py DataFrame :=
  match n with
  | FloatCap _ => Raise (TypeError "n must be an integer")
  | _ =>
      let k := match n with IntCap k => k | _ => 1%nat end in
      if (len posterior <? k)%nat
      then Raise (ValueError
                    "Cannot take a larger sample than population")
      else Return {| columns := columns posterior;
                     rows := choose k (rows posterior) pick |}
  end.

(** ** The hyper-parameter likelihood *)

(** An object with a [prob] method that may also be callable. *)
Record prior_object : Type := {
  prob : gmap string (list (list float)) -> py (list (list float));
  call_method :
    option (gmap string (list (list float)) -> py (list (list float)))
}.

(** The population model: its [prob] reads its mutable [parameters]. *)
Record population_model : Type := {
  model_parameters : gmap string float;
  model_prob : gmap string float -> gmap string (list (list float))
               -> py (list (list float))
}.

(** [Likelihood.__init__(arg)], the method taken from the class and
    given one argument.  In Python 2 this is an unbound method, which
    accepts only an instance of [Likelihood] in first position; the
    argument here is the dict [model.parameters].  (In Python 3 the same
    call tries to set the attribute [parameters] of that dict and raises
    as well.) *)
Definition unbound_Likelihood__init__ (arg : gmap string float) : py unit :=
  Raise (TypeError
    "unbound method __init__() must be called with Likelihood instance").

Module HyperparameterLikelihood.
Section WithNumpy.
(** [np.log] is numpy's. *)
Variable np_log : float -> float.

(** The attributes of an instance.  [parameters] is [None] while the
    attribute does not exist: no statement of the class assigns it.
    [hyper_prior] is stored by the constructor and never read; it is
    left out. *)
Record t : Type := {
  posteriors : list DataFrame;
  sampling_prior : prior_object;
  model : population_model;
  max_samples : cap;
  data : gmap string (list (list float));
  n_posteriors : nat;
  samples_per_posterior : nat;
  log_factor : float;
  parameters : option (gmap string float)
}.

(** [for key in data: data[key].append(temp[key])]. *)
Fixpoint append_columns (keys : list string) (temp : DataFrame)
    (data : gmap string (list (list float)))
    : py (gmap string (list (list float))) :=
  match keys with
  | [] => Return data
  | key :: keys' =>
      column ← getitem temp key;
      append_columns keys' temp
        (<[key := default [] (data !! key) ++ [column]]> data)
  end.

(** The second loop of [resample_posteriors]; [i] counts the events
    and selects the random source of each draw. *)
Fixpoint sample_all (posteriors : list DataFrame) (max_samples : cap)
    (rnd : nat -> nat -> nat) (i : nat)
    (data : gmap string (list (list float)))
    : py (gmap string (list (list float))) :=
  match posteriors with
  | [] => Return data
  | posterior :: posteriors' =>
      temp ← sample posterior max_samples (rnd i);
      data' ← append_columns (elements (dom data)) temp data;
      sample_all posteriors' max_samples rnd (S i) data'
  end.

(** [resample_posteriors(self, max_samples)]: the value assigned to
    [self.max_samples] and the data returned.  Both the [min] of the
    first loop and the call of [sample] read the argument
    [max_samples], not the attribute. *)
Definition resample_posteriors (self_posteriors : list DataFrame)
    (self_max_samples : cap) (max_samples : cap)
    (rnd : nat -> nat -> nat)
    : py (cap * gmap string (list (list float))) :=
  let self_max_samples :=
    match max_samples with
    | NoCap => self_max_samples
    | _ => max_samples
    end in
  let self_max_samples :=
    foldl (fun _ posterior => py2_min (len posterior) max_samples)
      self_max_samples self_posteriors in
  match self_posteriors with
  | [] => Raise (IndexError "list index out of range")
  | first :: _ =>
      let data : gmap string (list (list float)) :=
        list_to_map ((fun key => (key, [])) <$> columns first) in
      data ← sample_all self_posteriors max_samples rnd 0 data;
      Return (self_max_samples, data)
  end.

(** The statements of [__init__] after the first one. *)
Definition __init__tail (posteriors : list DataFrame)
    (model : population_model) (sampling_prior : prior_object)
    (max_samples : cap) (rnd : nat -> nat -> nat) : py t :=
  '(self_max_samples, data) ←
    resample_posteriors posteriors max_samples NoCap rnd;
  match (map_to_list data).*2 with
  | [] => Raise (IndexError "list index out of range")
  | array :: _ =>
      let n_posteriors := py_min (np_shape array) in
      let samples_per_posterior := py_max (np_shape array) in
      Return {|
        posteriors := posteriors;
        sampling_prior := sampling_prior;
        model := model;
        max_samples := self_max_samples;
        data := data;
        n_posteriors := n_posteriors;
        samples_per_posterior := samples_per_posterior;
        log_factor :=
          fmul (float_of_Z (- Z.of_nat n_posteriors))
            (np_log (float_of_Z (Z.of_nat samples_per_posterior)));
        parameters := None
      |}
  end.

Definition __init__ (posteriors : list DataFrame)
    (model : population_model) (sampling_prior : prior_object)
    (max_samples : cap) (rnd : nat -> nat -> nat) : py t :=
  _ ← unbound_Likelihood__init__ (model_parameters model);
  __init__tail posteriors model sampling_prior max_samples rnd.

(** [self.model.parameters.update(self.parameters)]. *)
Definition update_model (self : t) (parameters : gmap string float) : t :=
  {| posteriors := posteriors self;
     sampling_prior := sampling_prior self;
     model := {| model_parameters :=
                   parameters ∪ model_parameters (model self);
                 model_prob := model_prob (model self) |};
     max_samples := max_samples self;
     data := data self;
     n_posteriors := n_posteriors self;
     samples_per_posterior := samples_per_posterior self;
     log_factor := log_factor self;
     parameters := Some parameters |}.

(** The value returned and the object after the call: the model's
    parameters have been updated.  The sampling prior is called as a
    function, not through its [prob] method. *)
Definition log_likelihood (self : t) : py (float * t) :=
  match parameters self with
  | None =>
      Raise (AttributeError "object has no attribute 'parameters'")
  | Some parameters =>
      let self := update_model self parameters in
      p ← model_prob (model self) (model_parameters (model self))
            (data self);
      match call_method (sampling_prior self) with
      | None => Raise (TypeError "object is not callable")
      | Some sampling_prior_call =>
          q ← sampling_prior_call (data self);
          ratio ← broadcast2 fdiv p q;
          let log_l :=
            fadd (np_fsum (map np_log (np_fsum_last_axis ratio)))
              (log_factor self) in
          Return (nan_to_num log_l, self)
      end
  end.
End WithNumpy.
End HyperparameterLikelihood.

(** ** [tupak/core/likelihood.py]: the base class and what is inherited *)

Definition fsub : float -> float -> float := SFsub prec emax.

Module Likelihood.

(** The two methods of the base class return [np.nan]. *)
Definition log_likelihood : py float := Return S754_nan.
Definition noise_log_likelihood : py float := Return S754_nan.

(** [self.log_likelihood() - self.noise_log_likelihood()]: the two
    methods are those of the class of [self], given here as their
    outcomes. *)
Definition log_likelihood_ratio
    (self_log_likelihood self_noise_log_likelihood : py float) : py float :=
  l ← self_log_likelihood;
  n ← self_noise_log_likelihood;
  Return (fsub l n).

End Likelihood.

(** [log_likelihood_ratio] on a hyper-parameter likelihood: the class
    overrides [log_likelihood] and inherits [noise_log_likelihood]. *)
Definition hyper_log_likelihood_ratio (np_log : float -> float)
    (self : HyperparameterLikelihood.t)
    : py (float * HyperparameterLikelihood.t) :=
  '(l, self') ← HyperparameterLikelihood.log_likelihood np_log self;
  n ← Likelihood.noise_log_likelihood;
  Return (fsub l n, self').

(** Several assignments [likelihood.parameters[key] = v] in a row. *)
Definition set_parameters (self : GaussianLikelihood.t)
    (updates : list (string * value)) : GaussianLikelihood.t :=
  foldl (fun self kv => GaussianLikelihood.set_parameter self kv.1 kv.2)
    self updates.

(** The number of rows that [sample] is asked for. *)
Definition rows_asked (n : cap) : nat :=
  match n with
  | IntCap k => k
  | _ => 1%nat
  end.

(** Every array of the data dict has [events] rows of [samples]
    entries. *)
Definition shaped (events samples : nat)
    (data : gmap string (list (list float))) : Prop :=
  forall key array, data !! key = Some array ->
    length array = events /\ Forall (fun row => length row = samples) array.

(** A model [f(x, mu, sigma) = mu] that has an argument named "sigma". *)
Definition constant_model : pyfunction := {|
  args := ["x"; "mu"; "sigma"];
  body := fun x kwargs =>
    match kwargs !! "mu" with
    | Some mu => np_binop Rplus (Array (map (fun _ => 0) x)) mu
    | None => Raise (TypeError "missing argument")
    end
|}.

(** A posterior sample set of two rows on the column "mu". *)
Definition posterior_2 : DataFrame :=
  {| columns := ["mu"]; rows := [[fzero]; [fzero]] |}.

(** Two posterior sample sets of 500 and of 300 rows, on one column. *)
Definition posterior_500 : DataFrame :=
  {| columns := ["mu"]; rows := replicate 500 [fzero] |}.
Definition posterior_300 : DataFrame :=
  {| columns := ["mu"]; rows := replicate 300 [fzero] |}.

(** A population model and a sampling prior that give probability zero
    to every sample of the column "mu", and a stand-in for [np.log]. *)
Definition zero_prob (data : gmap string (list (list float)))
    : py (list (list float)) :=
  Return (map (map (fun _ => fzero)) (default [] (data !! "mu"))).
Definition example_model : population_model :=
  {| model_parameters := ∅; model_prob := fun _ => zero_prob |}.
Definition example_sampling_prior : prior_object :=
  {| prob := zero_prob; call_method := Some zero_prob |}.
Definition example_log (x : float) : float :=
  match x with
  | S754_zero _ => S754_infinity true
  | _ => x
  end.
Definition example_hyper : HyperparameterLikelihood.t :=
  {| HyperparameterLikelihood.posteriors := [];
     HyperparameterLikelihood.sampling_prior := example_sampling_prior;
     HyperparameterLikelihood.model := example_model;
     HyperparameterLikelihood.max_samples := IntCap 2;
     HyperparameterLikelihood.data := {["mu" := [[fzero; fzero]]]};
     HyperparameterLikelihood.n_posteriors := 1;
     HyperparameterLikelihood.samples_per_posterior := 2;
     HyperparameterLikelihood.log_factor := fzero;
     HyperparameterLikelihood.parameters := Some ∅ |}.

(** A sampling prior as the docstring of the class describes it: an
    object with a [prob] method, which is not callable.  Its [prob] and
    the model's return finite, non-negative arrays (zeros). *)
Definition example_prob_only_prior : prior_object :=
  {| prob := zero_prob; call_method := None |}.

(** The likelihood of [example_hyper] with that sampling prior; the
    attribute [parameters] has been set by the sampler. *)
Definition example_hyper_prob_only : HyperparameterLikelihood.t :=
  {| HyperparameterLikelihood.posteriors := [];
     HyperparameterLikelihood.sampling_prior := example_prob_only_prior;
     HyperparameterLikelihood.model := example_model;
     HyperparameterLikelihood.max_samples := IntCap 2;
     HyperparameterLikelihood.data := {["mu" := [[fzero; fzero]]]};
     HyperparameterLikelihood.n_posteriors := 1;
     HyperparameterLikelihood.samples_per_posterior := 2;
     HyperparameterLikelihood.log_factor := fzero;
     HyperparameterLikelihood.parameters := Some ∅ |}.

(** A complex number that is a non-negative real. *)
Definition nonneg_real (z : complex) : Prop := Im z = 0 /\ 0 <= Re z.

(** * Properties *)

(** ** Strings *)

Lemma ascii_lower_idemp (c : ascii) : ascii_lower (ascii_lower c) = ascii_lower c.
Proof. destruct c as [[] [] [] [] [] [] [] []]; reflexivity. Qed.

Lemma lower_idemp (s : string) : lower (lower s) = lower s.
Proof.
  induction s as [|c s IH]; simpl; [reflexivity|].
  now rewrite ascii_lower_idemp, IH.
Qed.

(** ** Broadcasting *)

Section Broadcast.
Context {A B C : Type} (f : A -> B -> C).

Lemma broadcast_same_length (a : list A) (b : list B) :
  length a = length b -> broadcast f a b = Return (zip_with f a b).
Proof.
  intros Hlen. unfold broadcast.
  destruct a as [|x [|x' a']], b as [|y [|y' b']];
    try discriminate Hlen; try reflexivity.
  all: now rewrite decide_True by exact Hlen.
Qed.

Lemma broadcast_returns (a : list A) (b : list B) :
  broadcastable (length a) (length b) ->
  exists l, broadcast f a b = Return l.
Proof.
  intros [Hlen | [Ha | Hb]].
  - eexists. now apply broadcast_same_length.
  - destruct a as [|x [|x' a']]; try discriminate Ha.
    eexists. reflexivity.
  - destruct b as [|y [|y' b']]; try discriminate Hb.
    destruct a as [|x [|x' a']]; eexists; reflexivity.
Qed.

(** Whatever way the operands were stretched, every element of the
    result is [f x y] for an [x] of the first and a [y] of the second. *)
Lemma broadcast_Forall (P : A -> Prop) (Q : B -> Prop) (S : C -> Prop)
    (a : list A) (b : list B) (l : list C) :
  (forall x y, P x -> Q y -> S (f x y)) ->
  Forall P a -> Forall Q b ->
  broadcast f a b = Return l -> Forall S l.
Proof.
  intros Hf Ha Hb. unfold broadcast.
  assert (Hl : forall x, P x -> Forall S (map (f x) b)).
  { intros x Hx. apply Forall_map. eapply Forall_impl; [exact Hb|].
    intros y Hy. now apply Hf. }
  assert (Hr : forall y, Q y -> Forall S (map (fun x => f x y) a)).
  { intros y Hy. apply Forall_map. eapply Forall_impl; [exact Ha|].
    intros x Hx. now apply Hf. }
  assert (Hz : Forall S (zip_with f a b)).
  { clear Hl Hr. revert b Hb.
    induction Ha as [|x a Hx Ha IH]; intros b Hb; [constructor|].
    destruct Hb as [|y b Hy Hb]; [constructor|].
    simpl. constructor; [now apply Hf | now apply IH]. }
  destruct a as [|x [|x' a']].
  - destruct b as [|y [|y' b']]; intros Heq.
    + case_decide; [|discriminate]. injection Heq as <-. exact Hz.
    + injection Heq as <-. apply (Hr y). now inversion Hb.
    + case_decide; [|discriminate]. injection Heq as <-. exact Hz.
  - intros Heq. injection Heq as <-. apply (Hl x). now inversion Ha.
  - destruct b as [|y [|y' b']]; intros Heq.
    + case_decide; [|discriminate]. injection Heq as <-. exact Hz.
    + injection Heq as <-. apply (Hr y). now inversion Hb.
    + case_decide; [|discriminate]. injection Heq as <-. exact Hz.
Qed.
End Broadcast.

(** ** Geometry *)

(** Equality of vectors and tensors, component by component. *)
Ltac componentwise :=
  repeat match goal with
         | |- (_, _) = (_, _) => apply (f_equal2 pair)
         end;
  try ring.

Section GwUtilsFacts.
Variable U : core_utils.

(** C6: swapping the two detectors negates the geocentric time delay. *)
Theorem time_delay_geocentric_antisymmetric
    (d1 d2 : vec3) (ra dec t : R) :
  time_delay_geocentric U d1 d2 ra dec t
  = - time_delay_geocentric U d2 d1 ra dec t.
Proof.
  unfold time_delay_geocentric.
  destruct (ra_dec_to_theta_phi U ra dec (gps_time_to_gmst U t))
    as [theta phi].
  destruct d1 as [[a0 a1] a2], d2 as [[b0 b1] b2]; simpl.
  unfold Rdiv. ring.
Qed.

(** The value returned depends on [mode] through [mode.lower()] only. *)
Lemma get_polarization_tensor_value_lower ra dec time psi mode :
  snd (get_polarization_tensor U ra dec time psi mode)
  = snd (get_polarization_tensor U ra dec time psi (lower mode)).
Proof.
  unfold get_polarization_tensor. rewrite lower_idemp.
  destruct (wave_frame U ra dec time psi) as [m n].
  repeat match goal with
         | |- context [String.eqb ?a ?b] => destruct (String.eqb a b)
         end; reflexivity.
Qed.

(** C10: a mode whose lower-case form is one of the six known names
    gives the same log and the same tensor as that lower-case name. *)
Theorem get_polarization_tensor_case_insensitive
    (ra dec time psi : R) (mode : string) :
  lower mode ∈ polarization_modes ->
  get_polarization_tensor U ra dec time psi mode
  = get_polarization_tensor U ra dec time psi (lower mode).
Proof.
  intros Hin. unfold get_polarization_tensor. rewrite lower_idemp.
  destruct (wave_frame U ra dec time psi) as [m n].
  unfold polarization_modes in Hin.
  repeat (apply elem_of_cons in Hin as [-> | Hin]; [reflexivity|]).
  inversion Hin.
Qed.

(** The wave-frame vectors have the same length and are orthogonal:
    this is what makes the plus and cross tensors trace-free. *)
Lemma wave_frame_norms ra dec time psi :
  let '(m, n) := wave_frame U ra dec time psi in
  dot m m - dot n n = 0 /\ dot m n = 0.
Proof.
  unfold wave_frame.
  destruct (ra_dec_to_theta_phi U ra dec (gps_time_to_gmst U time))
    as [theta phi]; simpl.
  pose proof (sin2_cos2 theta) as Ht. pose proof (sin2_cos2 phi) as Hp.
  unfold Rsqr in Ht, Hp.
  set (st := sin theta) in *. set (ct := cos theta) in *.
  set (sp := sin phi) in *. set (cp := cos phi) in *.
  set (s := sin psi). set (c := cos psi).
  split.
  - replace (_ - _) with
      ((s * s - c * c) * (ct * ct * (sp * sp + cp * cp) + st * st
                          - (sp * sp + cp * cp))) by ring.
    rewrite Hp. replace (ct * ct * 1 + st * st) with (st * st + ct * ct) by ring.
    rewrite Ht. ring.
  - replace (_ + _ + _) with
      (s * c * (ct * ct * (sp * sp + cp * cp) + st * st
                - (sp * sp + cp * cp))) by ring.
    rewrite Hp. replace (ct * ct * 1 + st * st) with (st * st + ct * ct) by ring.
    rewrite Ht. ring.
Qed.

Lemma trace_einsum_ij a b : trace (einsum_ij a b) = dot a b.
Proof. destruct a as [[a0 a1] a2], b as [[b0 b1] b2]; reflexivity. Qed.

Lemma trace_madd s t : trace (madd s t) = trace s + trace t.
Proof.
  destruct s as [[[[? ?] ?] [[? ?] ?]] [[? ?] ?]].
  destruct t as [[[[? ?] ?] [[? ?] ?]] [[? ?] ?]]. simpl. ring.
Qed.

Lemma trace_msub s t : trace (msub s t) = trace s - trace t.
Proof.
  destruct s as [[[[? ?] ?] [[? ?] ?]] [[? ?] ?]].
  destruct t as [[[[? ?] ?] [[? ?] ?]] [[? ?] ?]]. simpl. ring.
Qed.

Lemma dot_comm a b : dot a b = dot b a.
Proof. destruct a as [[a0 a1] a2], b as [[b0 b1] b2]; simpl; ring. Qed.

Lemma transpose_einsum_ij a b : transpose (einsum_ij a b) = einsum_ij b a.
Proof.
  destruct a as [[a0 a1] a2], b as [[b0 b1] b2]; simpl.
  componentwise.
Qed.

Lemma transpose_madd s t : transpose (madd s t) = madd (transpose s) (transpose t).
Proof.
  destruct s as [[[[? ?] ?] [[? ?] ?]] [[? ?] ?]].
  destruct t as [[[[? ?] ?] [[? ?] ?]] [[? ?] ?]]. reflexivity.
Qed.

Lemma transpose_msub s t : transpose (msub s t) = msub (transpose s) (transpose t).
Proof.
  destruct s as [[[[? ?] ?] [[? ?] ?]] [[? ?] ?]].
  destruct t as [[[[? ?] ?] [[? ?] ?]] [[? ?] ?]]. reflexivity.
Qed.

Lemma madd_comm s t : madd s t = madd t s.
Proof.
  destruct s as [[[[? ?] ?] [[? ?] ?]] [[? ?] ?]].
  destruct t as [[[[? ?] ?] [[? ?] ?]] [[? ?] ?]]. simpl.
  componentwise.
Qed.

(** C7: the plus, cross and breathing tensors are returned, each equal
    to its transpose, and the plus and cross tensors have trace zero
    (exactly, the arithmetic being exact). *)
Theorem polarization_tensor_symmetric_traceless (ra dec time psi : R) :
  exists Tplus Tcross Tbreathing : mat3,
    get_polarization_tensor U ra dec time psi "plus"
      = ([], Return (Some Tplus))
    /\ get_polarization_tensor U ra dec time psi "cross"
      = ([], Return (Some Tcross))
    /\ get_polarization_tensor U ra dec time psi "breathing"
      = ([], Return (Some Tbreathing))
    /\ transpose Tplus = Tplus
    /\ transpose Tcross = Tcross
    /\ transpose Tbreathing = Tbreathing
    /\ trace Tplus = 0
    /\ trace Tcross = 0.
Proof.
  pose proof (wave_frame_norms ra dec time psi) as Hn.
  unfold get_polarization_tensor.
  destruct (wave_frame U ra dec time psi) as [m n].
  destruct Hn as [Hmm Hmn]. simpl.
  do 3 eexists. repeat split.
  - now rewrite transpose_msub, !transpose_einsum_ij.
  - rewrite transpose_madd, !transpose_einsum_ij. apply madd_comm.
  - now rewrite transpose_madd, !transpose_einsum_ij.
  - rewrite trace_msub, !trace_einsum_ij. exact Hmm.
  - rewrite trace_madd, !trace_einsum_ij, (dot_comm n m), Hmn. ring.
Qed.

(** C4, as the code has it: a mode whose lower-case form is none of the
    six names is reported on the log and the call returns [None]; no
    exception is raised. *)
Theorem get_polarization_tensor_unknown_mode
    (ra dec time psi : R) (mode : string) :
  lower mode ∉ polarization_modes ->
  get_polarization_tensor U ra dec time psi mode
  = ([mode +:+ " not a polarization mode!"], Return None).
Proof.
  intros Hnotin. unfold get_polarization_tensor.
  destruct (wave_frame U ra dec time psi) as [m n].
  unfold polarization_modes in Hnotin.
  repeat match goal with
         | |- context [String.eqb ?a ?b] =>
             destruct (String.eqb_spec a b) as [Heq | _];
             [exfalso; apply Hnotin; rewrite Heq;
              apply list_elem_of_In; simpl; tauto|]
         end.
  reflexivity.
Qed.
End GwUtilsFacts.

Lemma get_polarization_tensor_case_insensitive_witness :
  (lower "Plus" ∈ polarization_modes)
  /\ get_polarization_tensor example_core_utils 0 0 0 0 "Plus"
     = get_polarization_tensor example_core_utils 0 0 0 0 (lower "Plus").
Proof.
  assert (H : lower "Plus" ∈ polarization_modes)
    by (apply list_elem_of_In; simpl; auto).
  split; [exact H|].
  exact (get_polarization_tensor_case_insensitive
           example_core_utils 0 0 0 0 "Plus" H).
Defined.

Lemma unknown_mode_not_in : lower "scalar" ∉ polarization_modes.
Proof.
  intros H. apply list_elem_of_In in H. simpl in H.
  repeat (destruct H as [H | H]; [discriminate H|]). exact H.
Qed.

Lemma get_polarization_tensor_unknown_mode_witness :
  (lower "scalar" ∉ polarization_modes)
  /\ get_polarization_tensor example_core_utils 0 0 0 0 "scalar"
     = (["scalar" +:+ " not a polarization mode!"], Return None).
Proof.
  split; [exact unknown_mode_not_in|].
  exact (get_polarization_tensor_unknown_mode
           example_core_utils 0 0 0 0 "scalar" unknown_mode_not_in).
Defined.

(** C4, as stated, fails: for the unknown mode ["scalar"] the call
    returns [None], so it is not true that every unknown mode raises.
    (The type of the result has no error value besides raising.) *)
Lemma get_polarization_tensor_unknown_mode_no_error :
  snd (get_polarization_tensor example_core_utils 0 0 0 0 "scalar")
  = Return None
  /\ ~ (forall (U : core_utils) (ra dec time psi : R) (mode : string),
          lower mode ∉ polarization_modes ->
          raised (snd (get_polarization_tensor U ra dec time psi mode))
          = true).
Proof.
  assert (Hscalar :
    snd (get_polarization_tensor example_core_utils 0 0 0 0 "scalar")
    = Return None).
  { unfold get_polarization_tensor.
    destruct (wave_frame example_core_utils 0 0 0 0) as [m n].
    reflexivity. }
  split; [exact Hscalar|].
  intros H.
  specialize (H example_core_utils 0 0 0 0 "scalar" unknown_mode_not_in).
  rewrite Hscalar in H. discriminate H.
Qed.

(** ** Signal-to-noise ratios *)

Lemma nonneg_real_conj_mul (z : complex) : nonneg_real (cmul (cconj z) z).
Proof. destruct z as [a b]. split; simpl; [ring | nra]. Qed.

Lemma nonneg_real_div (z : complex) (p : R) :
  nonneg_real z -> 0 < p -> nonneg_real (cdiv_real z p).
Proof.
  intros [Him Hre] Hp. destruct z as [a b]; simpl in *. subst b.
  split; simpl; unfold Rdiv.
  - ring.
  - apply Rmult_le_pos; [exact Hre|]. left. now apply Rinv_0_lt_compat.
Qed.

Lemma nonneg_real_sum (l : list complex) :
  Forall nonneg_real l -> nonneg_real (np_csum l).
Proof.
  induction 1 as [|z l [Him Hre] _ [IHim IHre]]; simpl.
  - split; simpl; lra.
  - split; simpl; lra.
Qed.

Lemma nonneg_real_scale (k : R) (z : complex) :
  0 <= k -> nonneg_real z -> nonneg_real (cscale k z).
Proof.
  intros Hk [Him Hre]. split; simpl.
  - rewrite Him. ring.
  - now apply Rmult_le_pos.
Qed.

Lemma Forall_conj_mul (s : list complex) :
  Forall nonneg_real (zip_with cmul (map cconj s) s).
Proof.
  induction s as [|z s IH]; simpl; constructor;
    [apply nonneg_real_conj_mul | exact IH].
Qed.

(** C8: when the detector's strain is the signal itself, the matched
    filter and the optimal signal-to-noise ratios coincide; each of the
    two is a single call of the noise-weighted inner product, with the
    signal as the conjugated argument. *)
Theorem matched_filter_equals_optimal
    (s : list complex) (detector : Interferometer) (T : R) :
  frequency_domain_strain detector = s ->
  matched_filter_snr_squared s detector T = optimal_snr_squared s detector T
  /\ matched_filter_snr_squared s detector T
     = noise_weighted_inner_product s (frequency_domain_strain detector)
         (power_spectral_density_array detector) T
  /\ optimal_snr_squared s detector T
     = noise_weighted_inner_product s s
         (power_spectral_density_array detector) T.
Proof.
  intros Hstrain. unfold matched_filter_snr_squared, optimal_snr_squared.
  rewrite Hstrain. repeat split.
Qed.

Lemma matched_filter_equals_optimal_witness :
  frequency_domain_strain example_detector = example_signal
  /\ matched_filter_snr_squared example_signal example_detector 4
     = optimal_snr_squared example_signal example_detector 4.
Proof.
  split; [reflexivity|].
  exact (proj1 (matched_filter_equals_optimal
                  example_signal example_detector 4 eq_refl)).
Defined.

(** C9: for a positive duration and a detector whose PSD array is
    positive everywhere and aligned with the signal (or broadcast against
    it), the optimal signal-to-noise ratio squared is returned, its
    imaginary part is zero and its real part is not negative. *)
Theorem optimal_snr_squared_real_nonneg
    (signal : list complex) (detector : Interferometer) (duration : R) :
  0 < duration ->
  Forall (fun p => 0 < p) (power_spectral_density_array detector) ->
  broadcastable (length signal)
    (length (power_spectral_density_array detector)) ->
  exists z : complex,
    optimal_snr_squared signal detector duration = Return z
    /\ Im z = 0 /\ 0 <= Re z.
Proof.
  intros HT Hpsd Hshape.
  unfold optimal_snr_squared, noise_weighted_inner_product.
  rewrite broadcast_same_length by now rewrite length_map.
  cbn [mbind py_bind].
  destruct (broadcast_returns cdiv_real
              (zip_with cmul (map cconj signal) signal)
              (power_spectral_density_array detector)) as [integrand Hint].
  { now rewrite length_zip_with, length_map, Nat.min_id. }
  rewrite Hint. cbn [mbind py_bind].
  destruct (Req_EM_T duration 0) as [H0 | _]; [lra|].
  eexists. split; [reflexivity|].
  apply nonneg_real_scale.
  - left. apply Rdiv_lt_0_compat; lra.
  - apply nonneg_real_sum.
    eapply (broadcast_Forall cdiv_real nonneg_real (fun p => 0 < p));
      [| apply Forall_conj_mul | exact Hpsd | exact Hint].
    intros z p Hz Hp. now apply nonneg_real_div.
Qed.

Lemma optimal_snr_squared_real_nonneg_witness :
  exists z : complex,
    optimal_snr_squared example_signal example_detector 4 = Return z
    /\ Im z = 0 /\ 0 <= Re z.
Proof.
  apply (optimal_snr_squared_real_nonneg example_signal example_detector 4).
  - lra.
  - repeat constructor; simpl; lra.
  - left. reflexivity.
Defined.

(** ** The Gaussian likelihood *)

Lemma dom_dict_fromkeys (keys : list string) :
  dom (dict_fromkeys keys) = list_to_set keys.
Proof.
  unfold dict_fromkeys. rewrite dom_list_to_map_L.
  rewrite <- list_fmap_compose. f_equal.
  induction keys as [|k keys IH]; simpl; [reflexivity|]. now f_equal.
Qed.

Lemma dict_fromkeys_lookup (keys : list string) (k : string) (v : value) :
  dict_fromkeys keys !! k = Some v -> v = PyNone.
Proof.
  unfold dict_fromkeys. intros Hlook.
  apply elem_of_list_to_map_2 in Hlook.
  apply list_elem_of_fmap in Hlook as (k' & Heq & _).
  now injection Heq as _ ->.
Qed.

(** C3: construction succeeds for a function with at least one argument;
    the fit parameters are the argument names after the first, the
    parameter mapping has these keys and, when no noise scale is given,
    the key "sigma" as well, and every value in it is [None]. *)
Theorem gaussian_init_parameters
    (x y : list R) (function : pyfunction) (sigma : value)
    (first : string) (rest : list string) :
  args function = first :: rest ->
  exists self : GaussianLikelihood.t,
    GaussianLikelihood.__init__ x y function sigma = Return self
    /\ list_to_set (GaussianLikelihood.function_keys self)
       = (list_to_set rest : gset string)
    /\ dom (GaussianLikelihood.parameters self)
       = list_to_set rest
         ∪ match sigma with PyNone => {["sigma"]} | _ => ∅ end
    /\ (forall k v, GaussianLikelihood.parameters self !! k = Some v ->
                    v = PyNone).
Proof.
  intros Hargs. unfold GaussianLikelihood.__init__. rewrite Hargs.
  eexists. split; [reflexivity|]. cbn [GaussianLikelihood.function_keys
    GaussianLikelihood.parameters].
  split; [|split].
  - unfold dict_keys. rewrite list_to_set_elements_L.
    apply dom_dict_fromkeys.
  - destruct sigma.
    + rewrite dom_insert_L, dom_dict_fromkeys. apply (comm_L (∪)).
    + rewrite dom_dict_fromkeys. symmetry. apply (right_id_L ∅ (∪)).
    + rewrite dom_dict_fromkeys. symmetry. apply (right_id_L ∅ (∪)).
  - intros k v Hlook. destruct sigma.
    + apply lookup_insert_Some in Hlook as [[_ <-] | [_ Hlook]];
        [reflexivity | now apply dict_fromkeys_lookup in Hlook].
    + now apply dict_fromkeys_lookup in Hlook.
    + now apply dict_fromkeys_lookup in Hlook.
Qed.

Lemma gaussian_init_parameters_witness :
  args linear_model = "x" :: ["m"; "c"]
  /\ exists self : GaussianLikelihood.t,
    GaussianLikelihood.__init__ [0; 1; 2] [0; 1; 2] linear_model PyNone
      = Return self
    /\ list_to_set (GaussianLikelihood.function_keys self)
       = (list_to_set ["m"; "c"] : gset string)
    /\ dom (GaussianLikelihood.parameters self)
       = list_to_set ["m"; "c"] ∪ {["sigma"]}
    /\ (forall k v, GaussianLikelihood.parameters self !! k = Some v ->
                    v = PyNone).
Proof.
  split; [reflexivity|].
  exact (gaussian_init_parameters [0; 1; 2] [0; 1; 2] linear_model PyNone
           "x" ["m"; "c"] eq_refl).
Defined.

(** The dict comprehension of [log_likelihood] returns as soon as every
    key is bound, and copies the bindings. *)
Lemma dict_comprehension_returns (keys : list string)
    (d : gmap string value) :
  (forall k, k ∈ keys -> is_Some (d !! k)) ->
  exists m : gmap string value,
    dict_comprehension keys d = Return m
    /\ dom m = list_to_set keys
    /\ (forall k, k ∈ keys -> m !! k = d !! k).
Proof.
  induction keys as [|k keys IH]; intros Hbound.
  - exists ∅. split; [reflexivity|]. split; [apply dom_empty_L|].
    intros k Hk. inversion Hk.
  - destruct IH as (m & Hm & Hdom & Hlook).
    { intros k' Hk'. apply Hbound. now right. }
    destruct (Hbound k) as [v Hv]; [now left|].
    exists (<[k := v]> m). cbn [dict_comprehension]. rewrite Hv, Hm.
    split; [reflexivity|]. split.
    + rewrite dom_insert_L, Hdom. reflexivity.
    + intros k' Hk'. destruct (decide (k = k')) as [<- | Hne].
      * now rewrite lookup_insert_eq.
      * rewrite lookup_insert_ne by exact Hne. apply Hlook.
        apply elem_of_cons in Hk' as [-> | Hk']; [congruence | exact Hk'].
Qed.

(** On a constructed likelihood whose mapping [d] still binds the fit
    parameters, the keyword arguments handed to the model are exactly
    its arguments after the first, with their current values: the call
    goes through to the body.  The key "sigma" added at construction is
    not among them, [function_keys] having been taken before. *)
Lemma gaussian_call_after_init
    (x y : list R) (function : pyfunction) (sigma : value)
    (first : string) (rest : list string)
    (self : GaussianLikelihood.t) (d : gmap string value) :
  args function = first :: rest -> first ∉ rest ->
  GaussianLikelihood.__init__ x y function sigma = Return self ->
  (forall k, k ∈ rest -> is_Some (d !! k)) ->
  exists model_parameters : gmap string value,
    dict_comprehension (GaussianLikelihood.function_keys self) d
      = Return model_parameters
    /\ (forall k, k ∈ rest -> model_parameters !! k = d !! k)
    /\ call function x model_parameters = body function x model_parameters.
Proof.
  intros Hargs Hfirst Hinit Hbound.
  unfold GaussianLikelihood.__init__ in Hinit. rewrite Hargs in Hinit.
  injection Hinit as <-. cbn [GaussianLikelihood.function_keys].
  assert (Hkeys : forall k, k ∈ dict_keys (dict_fromkeys rest) <-> k ∈ rest).
  { intros k. unfold dict_keys.
    rewrite elem_of_elements, dom_dict_fromkeys, elem_of_list_to_set.
    reflexivity. }
  destruct (dict_comprehension_returns (dict_keys (dict_fromkeys rest)) d)
    as (m & Hm & Hdom & Hlook).
  { intros k Hk. apply Hbound, Hkeys, Hk. }
  assert (Hdom' : dom m = list_to_set rest).
  { rewrite Hdom. unfold dict_keys.
    rewrite list_to_set_elements_L. apply dom_dict_fromkeys. }
  exists m. split; [exact Hm|]. split.
  - intros k Hk. apply Hlook, Hkeys, Hk.
  - unfold call. rewrite Hargs.
    rewrite decide_False, decide_True; [reflexivity | exact Hdom' |].
    rewrite Hdom', elem_of_list_to_set. exact Hfirst.
Qed.

(** C1: with [s] the noise scale in force (the "sigma" entry of the
    parameter mapping if there is one, the construction-time value
    otherwise) and [fx] the model evaluated on the fit parameters, the
    log-likelihood returned is the specification's formula on the
    residuals [y - fx]. *)
Theorem gaussian_log_likelihood_formula
    (self : GaussianLikelihood.t) (s : R)
    (model_parameters : gmap string value) (fx : list R) :
  (GaussianLikelihood.parameters self !! "sigma" = Some (Float s)
   \/ (GaussianLikelihood.parameters self !! "sigma" = None
       /\ GaussianLikelihood.sigma self = Float s)) ->
  dict_comprehension (GaussianLikelihood.function_keys self)
    (GaussianLikelihood.parameters self) = Return model_parameters ->
  call (GaussianLikelihood.function self) (GaussianLikelihood.x self)
    model_parameters = Return (Array fx) ->
  length fx = length (GaussianLikelihood.y self) ->
  GaussianLikelihood.log_likelihood self
  = Return (Float (spec_gaussian_log_likelihood
                     (zip_with Rminus (GaussianLikelihood.y self) fx) s
                     (GaussianLikelihood.N self))).
Proof.
  intros Hsigma Hparams Hcall Hlen.
  assert (Hs : default (GaussianLikelihood.sigma self)
                 (GaussianLikelihood.parameters self !! "sigma") = Float s).
  { destruct Hsigma as [-> | [-> ->]]; reflexivity. }
  unfold GaussianLikelihood.log_likelihood.
  rewrite Hs, Hparams. cbn [mbind py_bind]. rewrite Hcall.
  cbn [mbind py_bind np_binop].
  rewrite broadcast_same_length by now symmetry.
  cbn [mbind py_bind np_binop np_unop np_sum_value].
  unfold spec_gaussian_log_likelihood. rewrite map_map. reflexivity.
Qed.

Lemma example_function_keys : dict_keys (dict_fromkeys ["m"; "c"]) = ["c"; "m"].
Proof. vm_compute. reflexivity. Qed.

Lemma gaussian_log_likelihood_formula_witness :
  (self ← example_gaussian; GaussianLikelihood.log_likelihood self)
  = Return (Float (- 0.5 * (0 + 3 * ln (2 * PI)))).
Proof.
  unfold example_gaussian, GaussianLikelihood.__init__.
  cbn [args linear_model mbind py_bind mret py_ret].
  rewrite (gaussian_log_likelihood_formula _ 1
             (<["c" := Float 0]> (<["m" := Float 1]> ∅))
             [1 * 0 + 0; 1 * 1 + 0; 1 * 2 + 0]).
  - unfold spec_gaussian_log_likelihood. simpl.
    replace (2 * PI * (1 * (1 * 1))) with (2 * PI) by ring.
    do 2 f_equal. field.
  - right. split; reflexivity.
  - cbn [GaussianLikelihood.function_keys GaussianLikelihood.parameters
         GaussianLikelihood.set_parameter].
    rewrite example_function_keys. reflexivity.
  - cbn [GaussianLikelihood.function GaussianLikelihood.x
         GaussianLikelihood.set_parameter].
    unfold call. cbn [args linear_model].
    rewrite decide_False, decide_True.
    + reflexivity.
    + rewrite !dom_insert_L, dom_empty_L. cbn [list_to_set foldr].
      now rewrite !(right_id_L ∅ (∪)), (comm_L (∪)).
    + rewrite !dom_insert_L, dom_empty_L.
      rewrite !elem_of_union, !elem_of_singleton, elem_of_empty.
      intros [H | [H | H]]; [discriminate H | discriminate H | exact H].
  - reflexivity.
Defined.

(** ** The hyper-parameter likelihood *)

Lemma nan_to_num_finite (x : float) : is_finite (nan_to_num x) = true.
Proof. destruct x as [s | [] | | s m e]; reflexivity. Qed.

Lemma broadcast2_same_shape {A B C} (f : A -> B -> C)
    (a : list (list A)) (b : list (list B)) :
  Forall2 (fun r1 r2 => length r1 = length r2) a b ->
  broadcast2 f a b = Return (zip_with (zip_with f) a b).
Proof.
  intros Hshape. unfold broadcast2.
  rewrite broadcast_same_length by (eapply Forall2_length; exact Hshape).
  cbn [mbind py_bind].
  induction Hshape as [|r1 r2 a b Hrow _ IH]; [reflexivity|].
  cbn [zip_with sequence foldr]. fold (sequence (zip_with (broadcast f) a b)).
  rewrite (broadcast_same_length f r1 r2 Hrow), IH. reflexivity.
Qed.

(** The coercion at the end of [log_likelihood], for the objects on which
    the call gets that far: when the attribute [parameters] has been set
    from outside and the sampling prior happens to be callable, and the
    two evaluations return arrays of one shape (whatever they hold,
    zeros included), what is returned is the estimator passed through
    [np.nan_to_num], a finite double. *)
Theorem hyper_log_likelihood_finite
    (np_log : float -> float) (self : HyperparameterLikelihood.t)
    (parameters : gmap string float)
    (sampling_prior_call :
       gmap string (list (list float)) -> py (list (list float)))
    (p q : list (list float)) :
  HyperparameterLikelihood.parameters self = Some parameters ->
  call_method (HyperparameterLikelihood.sampling_prior self)
    = Some sampling_prior_call ->
  model_prob (HyperparameterLikelihood.model self)
    (parameters ∪ model_parameters (HyperparameterLikelihood.model self))
    (HyperparameterLikelihood.data self) = Return p ->
  sampling_prior_call (HyperparameterLikelihood.data self) = Return q ->
  Forall2 (fun r1 r2 => length r1 = length r2) p q ->
  exists (v : float) (self' : HyperparameterLikelihood.t),
    HyperparameterLikelihood.log_likelihood np_log self = Return (v, self')
    /\ v = nan_to_num
             (fadd (np_fsum (map np_log
                      (np_fsum_last_axis (zip_with (zip_with fdiv) p q))))
                (HyperparameterLikelihood.log_factor self))
    /\ is_finite v = true.
Proof.
  intros Hparams Hcall Hp Hq Hshape.
  unfold HyperparameterLikelihood.log_likelihood. rewrite Hparams.
  cbn [HyperparameterLikelihood.update_model HyperparameterLikelihood.model
       HyperparameterLikelihood.data HyperparameterLikelihood.sampling_prior
       HyperparameterLikelihood.log_factor model_prob model_parameters].
  rewrite Hp. cbn [mbind py_bind]. rewrite Hcall, Hq. cbn [mbind py_bind].
  rewrite (broadcast2_same_shape fdiv p q Hshape). cbn [mbind py_bind].
  do 2 eexists. split; [reflexivity|]. split; [reflexivity|].
  apply nan_to_num_finite.
Qed.

(** With zero probabilities on both sides the ratio is [0/0], a NaN. *)
Example zero_over_zero : fdiv fzero fzero = S754_nan.
Proof. reflexivity. Qed.

Lemma hyper_log_likelihood_finite_witness :
  exists (v : float) (self' : HyperparameterLikelihood.t),
    HyperparameterLikelihood.log_likelihood example_log example_hyper
      = Return (v, self')
    /\ v = nan_to_num
             (fadd (np_fsum (map example_log
                      (np_fsum_last_axis
                         (zip_with (zip_with fdiv)
                            [[fzero; fzero]] [[fzero; fzero]]))))
                (HyperparameterLikelihood.log_factor example_hyper))
    /\ is_finite v = true.
Proof.
  apply (hyper_log_likelihood_finite example_log example_hyper ∅ zero_prob
           [[fzero; fzero]] [[fzero; fzero]]).
  - reflexivity.
  - reflexivity.
  - reflexivity.
  - reflexivity.
  - repeat constructor.
Defined.

(** C5, on the code: [log_likelihood] does not return a finite float on
    the inputs the claim is about.
    - The sampling prior is called as a function (line 138), while the
      docstring gives it as an object with a [prob] method and the model
      is evaluated through [.prob]: with a sampling prior that has a
      [prob] and is not callable, the call raises, whatever [prob] and
      the model return and whatever else the object holds.
    - No statement of the class sets the attribute [parameters]: on an
      object without it the call raises [AttributeError].
    - The constructor raises on every input, so the code builds no
      object on which the call could return.
    - At the input [example_hyper_prob_only], where both probability
      evaluations return the finite, non-negative array [[0, 0]], the
      call raises [TypeError]. *)
Theorem hyper_log_likelihood_raises
    (np_log : float -> float)
    (posteriors : list DataFrame) (model : population_model)
    (max_samples : cap) (data : gmap string (list (list float)))
    (n_posteriors samples_per_posterior : nat) (log_factor : float)
    (parameters : option (gmap string float))
    (sampling_prior : prior_object)
    (prob_only : gmap string (list (list float)) -> py (list (list float)))
    (rnd : nat -> nat -> nat) :
  raised (HyperparameterLikelihood.log_likelihood np_log
            {| HyperparameterLikelihood.posteriors := posteriors;
               HyperparameterLikelihood.sampling_prior :=
                 {| prob := prob_only; call_method := None |};
               HyperparameterLikelihood.model := model;
               HyperparameterLikelihood.max_samples := max_samples;
               HyperparameterLikelihood.data := data;
               HyperparameterLikelihood.n_posteriors := n_posteriors;
               HyperparameterLikelihood.samples_per_posterior :=
                 samples_per_posterior;
               HyperparameterLikelihood.log_factor := log_factor;
               HyperparameterLikelihood.parameters := parameters |})
  = true
  /\ HyperparameterLikelihood.log_likelihood np_log
       {| HyperparameterLikelihood.posteriors := posteriors;
          HyperparameterLikelihood.sampling_prior := sampling_prior;
          HyperparameterLikelihood.model := model;
          HyperparameterLikelihood.max_samples := max_samples;
          HyperparameterLikelihood.data := data;
          HyperparameterLikelihood.n_posteriors := n_posteriors;
          HyperparameterLikelihood.samples_per_posterior :=
            samples_per_posterior;
          HyperparameterLikelihood.log_factor := log_factor;
          HyperparameterLikelihood.parameters := None |}
     = Raise (AttributeError "object has no attribute 'parameters'")
  /\ raised (HyperparameterLikelihood.__init__ np_log posteriors model
               sampling_prior max_samples rnd) = true
  /\ model_prob example_model (∅ ∪ model_parameters example_model)
       (HyperparameterLikelihood.data example_hyper_prob_only)
     = Return [[fzero; fzero]]
  /\ prob example_prob_only_prior
       (HyperparameterLikelihood.data example_hyper_prob_only)
     = Return [[fzero; fzero]]
  /\ HyperparameterLikelihood.log_likelihood np_log example_hyper_prob_only
     = Raise (TypeError "object is not callable").
Proof.
  split; [|split; [|split; [|split; [|split]]]].
  - unfold HyperparameterLikelihood.log_likelihood.
    cbn [HyperparameterLikelihood.parameters].
    destruct parameters as [ps|]; [|reflexivity].
    cbn [HyperparameterLikelihood.update_model
         HyperparameterLikelihood.model HyperparameterLikelihood.data
         HyperparameterLikelihood.sampling_prior model_prob
         model_parameters call_method].
    destruct (model_prob model _ data); reflexivity.
  - reflexivity.
  - reflexivity.
  - reflexivity.
  - reflexivity.
  - reflexivity.
Qed.

(** [sample(None)] on a frame that has rows: one row. *)
Lemma sample_NoCap_one_row (posterior : DataFrame) (pick : nat -> nat) :
  rows posterior <> [] ->
  exists row : list float,
    sample posterior NoCap pick
    = Return {| columns := columns posterior; rows := [row] |}.
Proof.
  destruct posterior as [cols [|r rs]]; [intros H; now contradiction H|].
  intros _.
  eexists. unfold sample, len. cbn [rows columns length Nat.ltb Nat.leb choose].
  reflexivity.
Qed.

(** One pass of the inner loop over a data dict that has one key. *)
Lemma append_columns_single (key : string) (temp : DataFrame)
    (l : list (list float)) (column : list float) :
  getitem temp key = Return column ->
  HyperparameterLikelihood.append_columns
    (elements (dom ({[key := l]} : gmap string (list (list float)))))
    temp {[key := l]}
  = Return {[key := l ++ [column]]}.
Proof.
  intros Hcol. rewrite dom_singleton_L, elements_singleton.
  cbn [HyperparameterLikelihood.append_columns]. rewrite Hcol.
  cbn [mbind py_bind]. rewrite lookup_singleton_eq, insert_singleton_eq.
  reflexivity.
Qed.

Lemma resample_posteriors_scenario (rnd : nat -> nat -> nat) :
  exists a b : float,
    HyperparameterLikelihood.resample_posteriors
      [posterior_500; posterior_300] (IntCap 300) NoCap rnd
    = Return (NoCap, {["mu" := [[a]; [b]]]}).
Proof.
  destruct (sample_NoCap_one_row posterior_500 (rnd 0%nat))
    as [row1 Hrow1]; [discriminate|].
  destruct (sample_NoCap_one_row posterior_300 (rnd 1%nat))
    as [row2 Hrow2]; [discriminate|].
  exists (nth 0 row1 fzero), (nth 0 row2 fzero).
  unfold HyperparameterLikelihood.resample_posteriors.
  cbn [foldl py2_min HyperparameterLikelihood.sample_all].
  rewrite Hrow1, Hrow2.
  change (columns posterior_500) with ["mu"].
  change (columns posterior_300) with ["mu"].
  cbn [fmap list_fmap list_to_map foldr fst snd mbind py_bind].
  rewrite insert_empty.
  rewrite (append_columns_single "mu"
             {| columns := ["mu"]; rows := [row1] |}
             [] [nth 0 row1 fzero] eq_refl).
  cbn [mbind py_bind app].
  rewrite (append_columns_single "mu"
             {| columns := ["mu"]; rows := [row2] |}
             [[nth 0 row1 fzero]] [nth 0 row2 fzero] eq_refl).
  reflexivity.
Qed.

(** C2, on the code: the constructor is given the two posterior sets of
    500 and of 300 rows and [max_samples = 300].  Its first statement
    raises.  The statements after it, run on their own, call
    [resample_posteriors] without an argument, so that each event
    contributes the single row that [sample(None)] draws: the data array
    is 2 x 1, [n_posteriors] is 1, [samples_per_posterior] is 2, the
    attribute [max_samples] ends as [None], and [log_factor] is
    [-1 * log(2)]. *)
Theorem hyper_init_scenario
    (np_log : float -> float) (model : population_model)
    (sampling_prior : prior_object) (rnd : nat -> nat -> nat) :
  raised (HyperparameterLikelihood.__init__ np_log
            [posterior_500; posterior_300] model sampling_prior
            (IntCap 300) rnd) = true
  /\ exists (self : HyperparameterLikelihood.t) (a b : float),
      HyperparameterLikelihood.__init__tail np_log
        [posterior_500; posterior_300] model sampling_prior
        (IntCap 300) rnd = Return self
      /\ HyperparameterLikelihood.data self = {["mu" := [[a]; [b]]]}
      /\ HyperparameterLikelihood.n_posteriors self = 1%nat
      /\ HyperparameterLikelihood.samples_per_posterior self = 2%nat
      /\ HyperparameterLikelihood.max_samples self = NoCap
      /\ HyperparameterLikelihood.log_factor self
         = fmul (float_of_Z (-1)) (np_log (float_of_Z 2)).
Proof.
  split; [reflexivity|].
  destruct (resample_posteriors_scenario rnd) as (a & b & Hdata).
  eexists _, a, b.
  unfold HyperparameterLikelihood.__init__tail. rewrite Hdata.
  cbn [mbind py_bind]. rewrite map_to_list_singleton.
  cbn [fmap list_fmap snd]. repeat split.
Qed.

(** * Further properties of the code *)

(** ** Time delays *)

Lemma cauchy_schwarz3 (a b : vec3) : dot a b ^ 2 <= dot a a * dot b b.
Proof.
  destruct a as [[a0 a1] a2], b as [[b0 b1] b2]; simpl.
  assert (H : (a0 * a0 + a1 * a1 + a2 * a2) * (b0 * b0 + b1 * b1 + b2 * b2)
              - (a0 * b0 + a1 * b1 + a2 * b2) * ((a0 * b0 + a1 * b1 + a2 * b2) * 1)
              = (a1 * b2 - a2 * b1) ^ 2 + (a2 * b0 - a0 * b2) ^ 2
                + (a0 * b1 - a1 * b0) ^ 2) by ring.
  pose proof (pow2_ge_0 (a1 * b2 - a2 * b1)).
  pose proof (pow2_ge_0 (a2 * b0 - a0 * b2)).
  pose proof (pow2_ge_0 (a0 * b1 - a1 * b0)).
  lra.
Qed.

(** The direction vector of [time_delay_geocentric] has length one. *)
Lemma direction_unit (theta phi : R) :
  dot (sin theta * cos phi, sin theta * sin phi, cos theta)
      (sin theta * cos phi, sin theta * sin phi, cos theta) = 1.
Proof.
  simpl. pose proof (sin2_cos2 theta) as Ht. pose proof (sin2_cos2 phi) as Hp.
  unfold Rsqr in Ht, Hp.
  replace (_ + _ + _) with
    (sin theta * sin theta * (sin phi * sin phi + cos phi * cos phi)
     + cos theta * cos theta) by ring.
  rewrite Hp. lra.
Qed.

Section TimeDelayFacts.
Variable U : core_utils.

(** The delays between three detectors add up: going from the first to
    the third is going through the second. *)
Theorem time_delay_geocentric_additive (d1 d2 d3 : vec3) (ra dec t : R) :
  time_delay_geocentric U d1 d3 ra dec t
  = time_delay_geocentric U d1 d2 ra dec t
    + time_delay_geocentric U d2 d3 ra dec t.
Proof.
  unfold time_delay_geocentric.
  destruct (ra_dec_to_theta_phi U ra dec (gps_time_to_gmst U t))
    as [theta phi].
  destruct d1 as [[a0 a1] a2], d2 as [[b0 b1] b2], d3 as [[c0 c1] c2]; simpl.
  unfold Rdiv. ring.
Qed.

(** For a positive speed of light, the delay is never longer than the
    light travel time between the two detectors. *)
Theorem time_delay_geocentric_light_travel_bound
    (d1 d2 : vec3) (ra dec t : R) :
  0 < speed_of_light U ->
  Rabs (time_delay_geocentric U d1 d2 ra dec t)
  <= sqrt (dot (vsub d2 d1) (vsub d2 d1)) / speed_of_light U.
Proof.
  intros Hc. unfold time_delay_geocentric.
  destruct (ra_dec_to_theta_phi U ra dec (gps_time_to_gmst U t))
    as [theta phi].
  set (omega := (sin theta * cos phi, sin theta * sin phi, cos theta)).
  set (delta := vsub d2 d1).
  unfold Rdiv. rewrite Rabs_mult.
  rewrite (Rabs_right (/ speed_of_light U))
    by (left; now apply Rinv_0_lt_compat).
  apply Rmult_le_compat_r; [left; now apply Rinv_0_lt_compat|].
  pose proof (cauchy_schwarz3 omega delta) as Hcs.
  unfold omega in Hcs at 2 3. rewrite direction_unit, Rmult_1_l in Hcs.
  rewrite <- sqrt_Rsqr_abs. apply sqrt_le_1_alt.
  unfold Rsqr. replace (dot omega delta * dot omega delta)
    with (dot omega delta ^ 2) by ring.
  exact Hcs.
Qed.
End TimeDelayFacts.

Lemma time_delay_geocentric_light_travel_bound_witness :
  0 < speed_of_light example_core_utils
  /\ Rabs (time_delay_geocentric example_core_utils (1, 0, 0) (0, 2, 0) 0 0 0)
     <= sqrt (dot (vsub (0, 2, 0) (1, 0, 0)) (vsub (0, 2, 0) (1, 0, 0)))
        / speed_of_light example_core_utils.
Proof.
  assert (Hc : 0 < speed_of_light example_core_utils) by (simpl; lra).
  split; [exact Hc|].
  exact (time_delay_geocentric_light_travel_bound example_core_utils
           (1, 0, 0) (0, 2, 0) 0 0 0 Hc).
Defined.

(** ** Polarization tensors *)

(** Each component goal is a polynomial identity in the sines and
    cosines, modulo [sin^2 + cos^2 = 1]. *)
Ltac trig_components :=
  repeat match goal with
         | |- (_, _) = (_, _) => apply (f_equal2 pair)
         end;
  nsatz.

Section PolarizationFacts.
Variable U : core_utils.

(** The wave-frame vectors are unit vectors. *)
Lemma wave_frame_unit ra dec time psi :
  let '(m, n) := wave_frame U ra dec time psi in
  dot m m = 1 /\ dot n n = 1.
Proof.
  unfold wave_frame.
  destruct (ra_dec_to_theta_phi U ra dec (gps_time_to_gmst U time))
    as [theta phi]; simpl.
  pose proof (sin2_cos2 theta) as Ht. pose proof (sin2_cos2 phi) as Hp.
  pose proof (sin2_cos2 psi) as Hs. unfold Rsqr in Ht, Hp, Hs.
  split; nsatz.
Qed.

Lemma dot_cross_left a b : dot a (cross a b) = 0.
Proof. destruct a as [[a0 a1] a2], b as [[b0 b1] b2]; simpl; ring. Qed.

Lemma dot_cross_right a b : dot b (cross a b) = 0.
Proof. destruct a as [[a0 a1] a2], b as [[b0 b1] b2]; simpl; ring. Qed.

Lemma dot_cross_cross a b :
  dot (cross a b) (cross a b) = dot a a * dot b b - dot a b * dot a b.
Proof. destruct a as [[a0 a1] a2], b as [[b0 b1] b2]; simpl; ring. Qed.

Lemma trace_mscale k t : trace (mscale k t) = k * trace t.
Proof.
  destruct t as [[[[? ?] ?] [[? ?] ?]] [[? ?] ?]]. simpl. ring.
Qed.

Lemma transpose_mscale k t : transpose (mscale k t) = mscale k (transpose t).
Proof.
  destruct t as [[[[? ?] ?] [[? ?] ?]] [[? ?] ?]]. reflexivity.
Qed.

(** The vector modes x and y are returned as symmetric, trace-free
    tensors. *)
Theorem polarization_tensor_vector_modes (ra dec time psi : R) :
  exists Tx Ty : mat3,
    get_polarization_tensor U ra dec time psi "x" = ([], Return (Some Tx))
    /\ get_polarization_tensor U ra dec time psi "y"
       = ([], Return (Some Ty))
    /\ transpose Tx = Tx /\ transpose Ty = Ty
    /\ trace Tx = 0 /\ trace Ty = 0.
Proof.
  unfold get_polarization_tensor.
  destruct (wave_frame U ra dec time psi) as [m n]. simpl.
  do 2 eexists. repeat split.
  - rewrite transpose_madd, !transpose_einsum_ij. apply madd_comm.
  - rewrite transpose_madd, !transpose_einsum_ij. apply madd_comm.
  - rewrite trace_madd, !trace_einsum_ij, (dot_comm (cross m n) m),
      dot_cross_left. ring.
  - rewrite trace_madd, !trace_einsum_ij, (dot_comm (cross m n) n),
      dot_cross_right. ring.
Qed.

(** The scalar modes: the breathing tensor has trace 2, the longitudinal
    tensor is symmetric and has trace [sqrt 2]. *)
Theorem polarization_tensor_scalar_modes (ra dec time psi : R) :
  exists Tb Tl : mat3,
    get_polarization_tensor U ra dec time psi "breathing"
      = ([], Return (Some Tb))
    /\ get_polarization_tensor U ra dec time psi "longitudinal"
       = ([], Return (Some Tl))
    /\ trace Tb = 2
    /\ transpose Tl = Tl
    /\ trace Tl = sqrt 2.
Proof.
  pose proof (wave_frame_unit ra dec time psi) as Hunit.
  pose proof (wave_frame_norms U ra dec time psi) as Hn.
  unfold get_polarization_tensor.
  destruct (wave_frame U ra dec time psi) as [m n].
  destruct Hunit as [Hm Hnn]. destruct Hn as [_ Hmn]. simpl.
  do 2 eexists. repeat split.
  - rewrite trace_madd, !trace_einsum_ij, Hm, Hnn. ring.
  - now rewrite transpose_mscale, transpose_einsum_ij.
  - rewrite trace_mscale, trace_einsum_ij, dot_cross_cross, Hm, Hnn, Hmn.
    ring.
Qed.

(** The breathing and the longitudinal tensors do not depend on the
    polarization angle. *)
Theorem polarization_tensor_scalar_modes_psi_independent
    (ra dec time psi1 psi2 : R) :
  get_polarization_tensor U ra dec time psi1 "breathing"
  = get_polarization_tensor U ra dec time psi2 "breathing"
  /\ get_polarization_tensor U ra dec time psi1 "longitudinal"
     = get_polarization_tensor U ra dec time psi2 "longitudinal".
Proof.
  unfold get_polarization_tensor, wave_frame.
  destruct (ra_dec_to_theta_phi U ra dec (gps_time_to_gmst U time))
    as [theta phi]. simpl.
  pose proof (sin2_cos2 psi1) as H1. pose proof (sin2_cos2 psi2) as H2.
  unfold Rsqr in H1, H2.
  split; do 3 f_equal; trig_components.
Qed.

(** The longitudinal tensor is built on the direction vector that
    [time_delay_geocentric] projects the baseline on. *)
Theorem longitudinal_along_time_delay_direction (ra dec time psi : R) :
  exists k : vec3,
    (forall d1 d2 : vec3,
        time_delay_geocentric U d1 d2 ra dec time
        = dot k (vsub d2 d1) / speed_of_light U)
    /\ get_polarization_tensor U ra dec time psi "longitudinal"
       = ([], Return (Some (mscale (sqrt 2) (einsum_ij k k)))).
Proof.
  unfold get_polarization_tensor, wave_frame, time_delay_geocentric.
  destruct (ra_dec_to_theta_phi U ra dec (gps_time_to_gmst U time))
    as [theta phi].
  exists (sin theta * cos phi, sin theta * sin phi, cos theta).
  split; [reflexivity|]. simpl.
  pose proof (sin2_cos2 theta) as Ht. pose proof (sin2_cos2 phi) as Hp.
  pose proof (sin2_cos2 psi) as Hs. unfold Rsqr in Ht, Hp, Hs.
  do 3 f_equal; trig_components.
Qed.

(** Turning the polarization angle by [psi] mixes the plus and cross
    tensors of angle zero with [cos (2 psi)] and [sin (2 psi)]. *)
Theorem polarization_tensor_spin2_rotation (ra dec time psi : R) :
  exists P0 C0 P C : mat3,
    get_polarization_tensor U ra dec time 0 "plus" = ([], Return (Some P0))
    /\ get_polarization_tensor U ra dec time 0 "cross"
       = ([], Return (Some C0))
    /\ get_polarization_tensor U ra dec time psi "plus"
       = ([], Return (Some P))
    /\ get_polarization_tensor U ra dec time psi "cross"
       = ([], Return (Some C))
    /\ P = madd (mscale (cos (2 * psi)) P0) (mscale (sin (2 * psi)) C0)
    /\ C = msub (mscale (cos (2 * psi)) C0) (mscale (sin (2 * psi)) P0).
Proof.
  unfold get_polarization_tensor, wave_frame.
  destruct (ra_dec_to_theta_phi U ra dec (gps_time_to_gmst U time))
    as [theta phi]. simpl.
  do 4 eexists. do 4 (split; [reflexivity|]).
  rewrite sin_0, cos_0, cos_2a, sin_2a. simpl.
  split; componentwise.
Qed.
End PolarizationFacts.

(** ** Vertex positions *)

Lemma Rpower_minus_half_sqr (d : R) :
  0 < d -> Rpower d (- 0.5) * Rpower d (- 0.5) = / d.
Proof.
  intros Hd. rewrite <- Rpower_plus.
  replace (- 0.5 + - 0.5) with (Ropp 1) by lra.
  rewrite Rpower_Ropp, Rpower_1 by exact Hd. reflexivity.
Qed.

(** At elevation zero the vertex lies on the ellipsoid of the two axes. *)
Theorem vertex_on_ellipsoid (latitude longitude : R) :
  let '(x, y, z) := get_vertex_position_geocentric latitude longitude 0 in
  x ^ 2 / semi_major_axis ^ 2 + y ^ 2 / semi_major_axis ^ 2
  + z ^ 2 / semi_minor_axis ^ 2 = 1.
Proof.
  unfold get_vertex_position_geocentric.
  assert (Ha : 0 < semi_major_axis) by (unfold semi_major_axis; lra).
  assert (Hb : 0 < semi_minor_axis) by (unfold semi_minor_axis; lra).
  set (a := semi_major_axis) in *. set (b := semi_minor_axis) in *.
  set (c := cos latitude). set (s := sin latitude).
  set (d := a ^ 2 * c ^ 2 + b ^ 2 * s ^ 2).
  assert (Hcs : s * s + c * c = 1) by apply (sin2_cos2 latitude).
  assert (Hd : 0 < d).
  { unfold d. replace (a ^ 2 * c ^ 2 + b ^ 2 * s ^ 2)
      with (a * a * (c * c) + b * b * (s * s)) by ring.
    pose proof (Rmult_lt_0_compat a a Ha Ha) as Haa.
    pose proof (Rmult_lt_0_compat b b Hb Hb) as Hbb.
    pose proof (Rle_0_sqr c) as Hc2. pose proof (Rle_0_sqr s) as Hs2.
    unfold Rsqr in Hc2, Hs2.
    destruct (Rlt_le_dec 0 (c * c)) as [Hpos | Hzero].
    - pose proof (Rmult_lt_0_compat _ _ Haa Hpos).
      pose proof (Rmult_le_pos _ _ (Rlt_le _ _ Hbb) Hs2). lra.
    - assert (Hs1 : 0 < s * s) by lra.
      pose proof (Rmult_lt_0_compat _ _ Hbb Hs1).
      pose proof (Rmult_le_pos _ _ (Rlt_le _ _ Haa) Hc2). lra. }
  pose proof (Rpower_minus_half_sqr d Hd) as Hq.
  set (q := Rpower d (- 0.5)) in *.
  pose proof (sin2_cos2 longitude) as Hl. unfold Rsqr in Hl.
  set (cl := cos longitude) in *. set (sl := sin longitude) in *.
  assert (Hqd : q * q * d = 1) by (rewrite Hq; field; lra).
  replace (_ + _ + _) with
    (q * q * (a ^ 2 * c ^ 2 * (sl * sl + cl * cl) + b ^ 2 * s ^ 2))
    by (field; lra).
  rewrite Hl. replace (a ^ 2 * c ^ 2 * 1 + b ^ 2 * s ^ 2) with d
    by (unfold d; ring).
  exact Hqd.
Qed.

(** The elevation moves the vertex along the local vertical
    [(cos lat cos lon, cos lat sin lon, sin lat)]. *)
Theorem vertex_elevation_along_vertical (latitude longitude elevation : R) :
  get_vertex_position_geocentric latitude longitude elevation
  = vadd (get_vertex_position_geocentric latitude longitude 0)
      (vscale elevation
         (cos latitude * cos longitude, cos latitude * sin longitude,
          sin latitude)).
Proof.
  unfold get_vertex_position_geocentric. simpl. componentwise.
Qed.

(** ** Spectral densities and inner products *)

Lemma complex_eq (z w : complex) : Re z = Re w -> Im z = Im w -> z = w.
Proof. destruct z, w; simpl; intros -> ->; reflexivity. Qed.

(** For a spacing that is not negative, the PSD of a frequency series is
    four times the squared modulus times the spacing, bin by bin. *)
Theorem psd_from_freq_series_formula (freq_data : list complex) (df : R) :
  0 <= df ->
  psd_from_freq_series freq_data df
  = Return (map (fun z => 4 * (Re z * Re z + Im z * Im z) * df) freq_data).
Proof.
  intros Hdf. unfold psd_from_freq_series, asd_from_freq_series, float_sqrt.
  destruct (Rlt_dec df 0) as [Hneg | _]; [lra|].
  cbn [mbind py_bind]. rewrite !map_map. f_equal.
  apply map_ext. intros z. unfold cabs.
  assert (Hn : 0 <= Re z * Re z + Im z * Im z) by nra.
  replace ((sqrt (Re z * Re z + Im z * Im z) * 2 * sqrt df) ^ 2)
    with (4 * (sqrt (Re z * Re z + Im z * Im z)
               * sqrt (Re z * Re z + Im z * Im z))
          * (sqrt df * sqrt df)) by ring.
  now rewrite !sqrt_sqrt.
Qed.

Lemma psd_from_freq_series_formula_witness :
  0 <= 0.25
  /\ psd_from_freq_series example_signal 0.25
     = Return (map (fun z => 4 * (Re z * Re z + Im z * Im z) * 0.25)
                 example_signal).
Proof.
  assert (H : 0 <= 0.25) by lra.
  split; [exact H|].
  exact (psd_from_freq_series_formula example_signal 0.25 H).
Defined.

Section BroadcastAlgebra.
Context {A B C D : Type}.

Lemma broadcast_flip (f : A -> B -> C) (a : list A) (b : list B) :
  broadcast f a b = broadcast (fun y x => f x y) b a.
Proof.
  unfold broadcast.
  assert (Hz : forall (a : list A) (b : list B),
             zip_with f a b = zip_with (fun y x => f x y) b a).
  { clear. induction a as [|x a IH]; intros [|y b]; simpl;
      [reflexivity .. | now rewrite IH]. }
  destruct a as [|x [|x' a']], b as [|y [|y' b']]; try reflexivity.
  all: rewrite Hz; repeat case_decide; try reflexivity;
    exfalso; simpl in *; congruence.
Qed.

Lemma broadcast_map_result (h : C -> D) (f : A -> B -> C)
    (a : list A) (b : list B) :
  broadcast (fun x y => h (f x y)) a b
  = (l ← broadcast f a b; Return (map h l)).
Proof.
  unfold broadcast.
  assert (Hz : forall (a : list A) (b : list B),
             zip_with (fun x y => h (f x y)) a b = map h (zip_with f a b)).
  { clear. induction a as [|x a IH]; intros [|y b]; simpl;
      [reflexivity .. | now rewrite IH]. }
  destruct a as [|x [|x' a']], b as [|y [|y' b']];
    cbn [mbind py_bind]; rewrite ?map_map; try reflexivity.
  all: case_decide; cbn [mbind py_bind]; rewrite ?Hz; reflexivity.
Qed.
End BroadcastAlgebra.

Lemma broadcast_ext {A B C} (f g : A -> B -> C) (a : list A) (b : list B) :
  (forall x y, f x y = g x y) -> broadcast f a b = broadcast g a b.
Proof.
  intros Hfg. unfold broadcast.
  assert (Hz : forall (a : list A) (b : list B),
             zip_with f a b = zip_with g a b).
  { clear -Hfg. induction a as [|x a IH]; intros [|y b]; simpl;
      [reflexivity .. | now rewrite IH, Hfg]. }
  assert (Hl : forall x, map (f x) b = map (g x) b)
    by (intros x; apply map_ext; intros y; apply Hfg).
  assert (Hr : forall y, map (fun x => f x y) a = map (fun x => g x y) a)
    by (intros y; apply map_ext; intros x; apply Hfg).
  destruct a as [|x [|x' a']], b as [|y [|y' b']];
    rewrite ?Hl, ?Hr, ?Hz; reflexivity.
Qed.

Lemma broadcast_map_left {A A' B C} (k : A -> A') (f : A' -> B -> C)
    (a : list A) (b : list B) :
  broadcast f (map k a) b = broadcast (fun x y => f (k x) y) a b.
Proof.
  unfold broadcast.
  assert (Hz : forall (a : list A) (b : list B),
             zip_with f (map k a) b = zip_with (fun x y => f (k x) y) a b).
  { clear. induction a as [|x a IH]; intros [|y b]; simpl;
      [reflexivity .. | now rewrite IH]. }
  destruct a as [|x [|x' a']], b as [|y [|y' b']];
    cbn [map]; rewrite ?map_map; try reflexivity.
  all: cbn [length]; rewrite ?length_map; case_decide; try reflexivity.
  all: now rewrite <- Hz.
Qed.

Lemma np_csum_map_cconj (l : list complex) :
  np_csum (map cconj l) = cconj (np_csum l).
Proof.
  induction l as [|z l IH]; simpl.
  - apply complex_eq; simpl; ring.
  - rewrite IH. apply complex_eq; simpl; ring.
Qed.

Lemma np_csum_map_cscale (k : R) (l : list complex) :
  np_csum (map (cscale k) l) = cscale k (np_csum l).
Proof.
  induction l as [|z l IH]; simpl.
  - apply complex_eq; simpl; ring.
  - rewrite IH. apply complex_eq; simpl; ring.
Qed.

(** The integrand of both inner products with its two signals swapped
    is the conjugate integrand. *)
Lemma integrand_swap (aa bb : list complex) (psd : list R) :
  (numerator ← broadcast cmul (map cconj bb) aa;
   broadcast cdiv_real numerator psd)
  = (numerator ← broadcast cmul (map cconj aa) bb;
     integrand ← broadcast cdiv_real numerator psd;
     Return (map cconj integrand)).
Proof.
  rewrite (broadcast_map_left cconj cmul bb aa).
  rewrite (broadcast_flip (fun y x => cmul (cconj y) x) bb aa).
  rewrite (broadcast_ext (fun x y : complex => cmul (cconj y) x)
             (fun x y : complex => cconj (cmul (cconj x) y)))
    by (intros x y; apply complex_eq; simpl; ring).
  rewrite (broadcast_map_result cconj (fun x y => cmul (cconj x) y) aa bb).
  rewrite <- (broadcast_map_left cconj cmul aa bb).
  destruct (broadcast cmul (map cconj aa) bb) as [numerator | e];
    cbn [mbind py_bind]; [|reflexivity].
  rewrite (broadcast_map_left cconj cdiv_real numerator psd).
  rewrite (broadcast_ext (fun (x : complex) (y : R) => cdiv_real (cconj x) y)
             (fun (x : complex) (y : R) => cconj (cdiv_real x y)))
    by (intros x y; apply complex_eq; simpl; unfold Rdiv; ring).
  apply broadcast_map_result.
Qed.

(** Swapping the two signals conjugates the noise-weighted inner
    product; an error is the same error. *)
Theorem noise_weighted_inner_product_conjugate_symmetric
    (aa bb : list complex) (psd : list R) (T : R) :
  noise_weighted_inner_product bb aa psd T
  = (z ← noise_weighted_inner_product aa bb psd T; Return (cconj z)).
Proof.
  unfold noise_weighted_inner_product.
  transitivity
    (integrand ← (numerator ← broadcast cmul (map cconj bb) aa;
                  broadcast cdiv_real numerator psd);
     if Req_EM_T T 0
     then Raise (ZeroDivisionError "float division by zero")
     else Return (cscale (4 / T) (np_csum integrand))).
  { destruct (broadcast cmul (map cconj bb) aa); reflexivity. }
  rewrite integrand_swap.
  destruct (broadcast cmul (map cconj aa) bb) as [num | e];
    cbn [mbind py_bind]; [|reflexivity].
  destruct (broadcast cdiv_real num psd) as [int | e];
    cbn [mbind py_bind]; [|reflexivity].
  destruct (Req_EM_T T 0); cbn [mbind py_bind]; [reflexivity|].
  rewrite np_csum_map_cconj. f_equal. apply complex_eq; simpl; ring.
Qed.

(** [inner_product] does not change when its two signals are swapped. *)
Theorem inner_product_symmetric
    (aa bb : list complex) (frequency : list R)
    (PSD : PowerSpectralDensity) :
  inner_product bb aa frequency PSD = inner_product aa bb frequency PSD.
Proof.
  unfold inner_product.
  destruct (power_spectral_density_interpolated PSD frequency)
    as [psd | e]; cbn [mbind py_bind]; [|reflexivity].
  transitivity
    (integrand ← (numerator ← broadcast cmul (map cconj bb) aa;
                  broadcast cdiv_real numerator psd);
     match frequency with
     | f0 :: f1 :: _ =>
         Return (4 * Re (ctimes_real (np_csum integrand) (f1 - f0)))
     | _ => Raise (IndexError "index 1 is out of bounds")
     end).
  { destruct (broadcast cmul (map cconj bb) aa); reflexivity. }
  rewrite integrand_swap.
  destruct (broadcast cmul (map cconj aa) bb) as [num | e];
    cbn [mbind py_bind]; [|reflexivity].
  destruct (broadcast cdiv_real num psd) as [int | e];
    cbn [mbind py_bind]; [|reflexivity].
  destruct frequency as [|f0 [|f1 rest]]; try reflexivity.
  rewrite np_csum_map_cconj. reflexivity.
Qed.

(** On aligned arrays and for a duration that is not zero, the
    noise-weighted inner product is the scaled sum of the integrand. *)
Lemma noise_weighted_inner_product_aligned
    (aa bb : list complex) (psd : list R) (T : R) :
  length bb = length aa -> length psd = length aa -> T <> 0 ->
  noise_weighted_inner_product aa bb psd T
  = Return (cscale (4 / T)
              (np_csum (zip_with cdiv_real
                          (zip_with cmul (map cconj aa) bb) psd))).
Proof.
  intros Hb Hpsd HT. unfold noise_weighted_inner_product.
  rewrite broadcast_same_length by (rewrite length_map; now symmetry).
  cbn [mbind py_bind].
  rewrite broadcast_same_length
    by (rewrite length_zip_with, length_map, Hb, Nat.min_id; now symmetry).
  cbn [mbind py_bind].
  destruct (Req_EM_T T 0); [contradiction | reflexivity].
Qed.

Lemma integrand_sum_additive (aa b1 b2 : list complex) (psd : list R) :
  length b1 = length b2 ->
  np_csum (zip_with cdiv_real
             (zip_with cmul (map cconj aa) (zip_with cadd b1 b2)) psd)
  = cadd
      (np_csum (zip_with cdiv_real (zip_with cmul (map cconj aa) b1) psd))
      (np_csum (zip_with cdiv_real (zip_with cmul (map cconj aa) b2) psd)).
Proof.
  revert b1 b2 psd.
  induction aa as [|a aa IH]; intros b1 b2 psd Hlen.
  - simpl. apply complex_eq; simpl; ring.
  - destruct b1 as [|x b1], b2 as [|y b2]; try discriminate Hlen.
    + simpl. apply complex_eq; simpl; ring.
    + destruct psd as [|p psd].
      * simpl. apply complex_eq; simpl; ring.
      * simpl in Hlen. injection Hlen as Hlen.
        cbn [map zip_with np_csum foldr].
        fold (np_csum (zip_with cdiv_real
                (zip_with cmul (map cconj aa) (zip_with cadd b1 b2)) psd)).
        fold (np_csum (zip_with cdiv_real
                (zip_with cmul (map cconj aa) b1) psd)).
        fold (np_csum (zip_with cdiv_real
                (zip_with cmul (map cconj aa) b2) psd)).
        rewrite (IH b1 b2 psd Hlen).
        apply complex_eq; simpl; unfold Rdiv; ring.
Qed.

(** The noise-weighted inner product is additive in the signal that is
    not conjugated, on aligned arrays and for a duration that is not
    zero. *)
Theorem noise_weighted_inner_product_additive
    (aa b1 b2 : list complex) (psd : list R) (T : R) :
  length b1 = length aa -> length b2 = length aa ->
  length psd = length aa -> T <> 0 ->
  exists z1 z2 : complex,
    noise_weighted_inner_product aa b1 psd T = Return z1
    /\ noise_weighted_inner_product aa b2 psd T = Return z2
    /\ noise_weighted_inner_product aa (zip_with cadd b1 b2) psd T
       = Return (cadd z1 z2).
Proof.
  intros H1 H2 Hpsd HT.
  do 2 eexists. split; [|split].
  - now apply noise_weighted_inner_product_aligned.
  - now apply noise_weighted_inner_product_aligned.
  - rewrite noise_weighted_inner_product_aligned; try assumption.
    + rewrite integrand_sum_additive by congruence.
      f_equal. apply complex_eq; simpl; ring.
    + rewrite length_zip_with, H1, H2. apply Nat.min_id.
Qed.

Lemma noise_weighted_inner_product_additive_witness :
  exists z1 z2 : complex,
    noise_weighted_inner_product example_signal example_signal [2; 4] 4
      = Return z1
    /\ noise_weighted_inner_product example_signal [Cplx 0 1; Cplx 3 0]
         [2; 4] 4 = Return z2
    /\ noise_weighted_inner_product example_signal
         (zip_with cadd example_signal [Cplx 0 1; Cplx 3 0]) [2; 4] 4
       = Return (cadd z1 z2).
Proof.
  apply (noise_weighted_inner_product_additive example_signal
           example_signal [Cplx 0 1; Cplx 3 0] [2; 4] 4);
    try reflexivity.
  lra.
Defined.

Lemma conj_mul_scaled (k : R) (s : list complex) :
  zip_with cmul (map cconj (map (cscale k) s)) (map (cscale k) s)
  = map (cscale (k * k)) (zip_with cmul (map cconj s) s).
Proof.
  induction s as [|z s IH]; simpl; [reflexivity|].
  rewrite IH. f_equal. apply complex_eq; simpl; ring.
Qed.

(** Scaling the signal by a real factor scales the optimal
    signal-to-noise ratio squared by the square of the factor; an error
    is the same error. *)
Theorem optimal_snr_squared_scaling
    (k : R) (signal : list complex) (detector : Interferometer) (T : R) :
  optimal_snr_squared (map (cscale k) signal) detector T
  = (z ← optimal_snr_squared signal detector T;
     Return (cscale (k * k) z)).
Proof.
  unfold optimal_snr_squared, noise_weighted_inner_product.
  rewrite !broadcast_same_length by now rewrite !length_map.
  cbn [mbind py_bind]. rewrite conj_mul_scaled.
  rewrite (broadcast_map_left (cscale (k * k)) cdiv_real).
  rewrite (broadcast_ext
             (fun (x : complex) (y : R) => cdiv_real (cscale (k * k) x) y)
             (fun (x : complex) (y : R) => cscale (k * k) (cdiv_real x y)))
    by (intros x y; apply complex_eq; simpl; unfold Rdiv; ring).
  rewrite (broadcast_map_result (cscale (k * k)) cdiv_real).
  destruct (broadcast cdiv_real (zip_with cmul (map cconj signal) signal)
              (power_spectral_density_array detector)) as [int | e];
    cbn [mbind py_bind]; [|reflexivity].
  destruct (Req_EM_T T 0); cbn [mbind py_bind]; [reflexivity|].
  rewrite np_csum_map_cscale. f_equal. apply complex_eq; simpl; ring.
Qed.

(** [inner_product] of a signal with itself is returned and is not
    negative, when the interpolated PSD is positive and aligned (or
    broadcast) and the first two frequencies do not decrease. *)
Theorem inner_product_self_nonneg
    (aa : list complex) (f0 f1 : R) (rest : list R)
    (PSD : PowerSpectralDensity) (psd : list R) :
  power_spectral_density_interpolated PSD (f0 :: f1 :: rest) = Return psd ->
  Forall (fun p => 0 < p) psd ->
  broadcastable (length aa) (length psd) ->
  f0 <= f1 ->
  exists r : R,
    inner_product aa aa (f0 :: f1 :: rest) PSD = Return r /\ 0 <= r.
Proof.
  intros Hinterp Hpsd Hshape Hf. unfold inner_product.
  rewrite Hinterp. cbn [mbind py_bind].
  rewrite broadcast_same_length by now rewrite length_map.
  cbn [mbind py_bind].
  destruct (broadcast_returns cdiv_real
              (zip_with cmul (map cconj aa) aa) psd) as [integrand Hint].
  { now rewrite length_zip_with, length_map, Nat.min_id. }
  rewrite Hint. cbn [mbind py_bind].
  eexists. split; [reflexivity|].
  assert (Hsum : nonneg_real (np_csum integrand)).
  { apply nonneg_real_sum.
    eapply (broadcast_Forall cdiv_real nonneg_real (fun p => 0 < p));
      [| apply Forall_conj_mul | exact Hpsd | exact Hint].
    intros z p Hz Hp. now apply nonneg_real_div. }
  destruct Hsum as [_ Hre]. simpl.
  apply Rmult_le_pos; [lra|]. apply Rmult_le_pos; [exact Hre | lra].
Qed.

Lemma inner_product_self_nonneg_witness :
  exists r : R,
    inner_product example_signal example_signal [10; 10.25] example_psd
      = Return r
    /\ 0 <= r.
Proof.
  apply (inner_product_self_nonneg example_signal 10 10.25 []
           example_psd [2; 2]).
  - reflexivity.
  - repeat constructor; lra.
  - left. reflexivity.
  - lra.
Defined.

(** With fewer than two frequencies, [inner_product] never returns. *)
Theorem inner_product_needs_two_frequencies
    (aa bb : list complex) (frequency : list R)
    (PSD : PowerSpectralDensity) :
  (length frequency < 2)%nat ->
  raised (inner_product aa bb frequency PSD) = true.
Proof.
  intros Hlen. unfold inner_product.
  destruct (power_spectral_density_interpolated PSD frequency)
    as [psd | e]; cbn [mbind py_bind]; [|reflexivity].
  destruct (broadcast cmul (map cconj aa) bb) as [num | e];
    cbn [mbind py_bind]; [|reflexivity].
  destruct (broadcast cdiv_real num psd) as [int | e];
    cbn [mbind py_bind]; [|reflexivity].
  destruct frequency as [|f0 [|f1 rest]]; try reflexivity.
  simpl in Hlen. lia.
Qed.

Lemma inner_product_needs_two_frequencies_witness :
  (length [10] < 2)%nat
  /\ raised (inner_product example_signal example_signal [10] example_psd)
     = true.
Proof.
  assert (H : (length [10] < 2)%nat) by (simpl; lia).
  split; [exact H|].
  exact (inner_product_needs_two_frequencies example_signal example_signal
           [10] example_psd H).
Defined.

(** When the frequency spacing is the inverse of the duration and the
    interpolated PSD is the PSD array, [inner_product] is the real part
    of the noise-weighted inner product. *)
Theorem inner_product_is_real_part_of_noise_weighted
    (aa bb : list complex) (f0 f1 : R) (rest : list R)
    (PSD : PowerSpectralDensity) (psd : list R) (T : R) :
  power_spectral_density_interpolated PSD (f0 :: f1 :: rest) = Return psd ->
  (f1 - f0) * T = 1 ->
  inner_product aa bb (f0 :: f1 :: rest) PSD
  = (z ← noise_weighted_inner_product aa bb psd T; Return (Re z)).
Proof.
  intros Hinterp Hdf. unfold inner_product, noise_weighted_inner_product.
  rewrite Hinterp. cbn [mbind py_bind].
  destruct (broadcast cmul (map cconj aa) bb) as [num | e];
    cbn [mbind py_bind]; [|reflexivity].
  destruct (broadcast cdiv_real num psd) as [int | e];
    cbn [mbind py_bind]; [|reflexivity].
  destruct (Req_EM_T T 0) as [H0 | HT]; [rewrite H0 in Hdf; lra|].
  cbn [mbind py_bind]. f_equal. simpl.
  replace (f1 - f0) with (/ T) by (apply (Rmult_eq_reg_r T); [|exact HT];
    rewrite Hdf; field; exact HT).
  unfold Rdiv. ring.
Qed.

Lemma inner_product_is_real_part_of_noise_weighted_witness :
  inner_product example_signal example_signal [10; 10.25] example_psd
  = (z ← noise_weighted_inner_product example_signal example_signal
           [2; 2] 4;
     Return (Re z)).
Proof.
  apply (inner_product_is_real_part_of_noise_weighted example_signal
           example_signal 10 10.25 [] example_psd [2; 2] 4).
  - reflexivity.
  - lra.
Defined.

(** ** Event times *)

Lemma substring_all (m : nat) (s : string) :
  (String.length s <= m)%nat -> substring 0 m s = s.
Proof.
  revert m. induction s as [|c s IH]; intros [|m] Hlen; simpl in *;
    try reflexivity; try lia.
  f_equal. apply IH. lia.
Qed.

Lemma substring_skip_prefix (m : nat) (prefix s : string) :
  substring (String.length prefix) m (prefix +:+ s) = substring 0 m s.
Proof.
  induction prefix as [|c prefix IH]; simpl; [reflexivity|].
  destruct m; exact IH.
Qed.

Lemma length_substring_le (n m : nat) (s : string) :
  (String.length (substring n m s) <= m)%nat.
Proof.
  revert n m. induction s as [|c s IH]; intros [|n] [|m]; simpl;
    try lia.
  - specialize (IH 0%nat m). lia.
  - apply (IH n 0%nat).
  - apply (IH n (S m)).
Qed.

Lemma string_length_app (s1 s2 : string) :
  String.length (s1 +:+ s2) = (String.length s1 + String.length s2)%nat.
Proof. induction s1 as [|c s1 IH]; simpl; [reflexivity | now rewrite IH]. Qed.

Lemma last_six_app (prefix code : string) :
  String.length code = 6%nat -> last_six (prefix +:+ code) = code.
Proof.
  intros Hlen. unfold last_six. rewrite string_length_app, Hlen.
  replace (String.length prefix + 6 - 6)%nat with (String.length prefix)
    by lia.
  rewrite substring_skip_prefix. apply substring_all. lia.
Qed.

Lemma last_six_idemp (event : string) :
  last_six (last_six event) = last_six event.
Proof.
  unfold last_six at 1.
  pose proof (length_substring_le (String.length event - 6) 6 event) as Hle.
  fold (last_six event) in Hle.
  replace (String.length (last_six event) - 6)%nat with 0%nat by lia.
  now apply substring_all.
Qed.

(** Only the last six characters of the event name count, for the time
    returned and for the message printed: an unknown event is reported
    under its last six characters. *)
Theorem get_event_time_last_six (event : string) :
  get_event_time event
  = match event_times !! last_six event with
    | Some event_time => ([], Some event_time)
    | None => (["Unknown event " +:+ last_six event +:+ "."], None)
    end.
Proof.
  unfold get_event_time.
  change (str_truthy "GW" || str_in "LVT" event)%bool with true.
  cbv iota. now rewrite last_six_idemp.
Qed.

(** Any prefix in front of a six-character event name is ignored. *)
Theorem get_event_time_prefix (prefix code : string) :
  String.length code = 6%nat ->
  get_event_time (prefix +:+ code) = get_event_time code.
Proof.
  intros Hlen. unfold get_event_time.
  change (str_truthy "GW" || str_in "LVT" (prefix +:+ code))%bool with true.
  change (str_truthy "GW" || str_in "LVT" code)%bool with true.
  cbv iota. rewrite (last_six_app prefix code Hlen).
  assert (Hcode : last_six code = code)
    by exact (last_six_app "" code Hlen).
  now rewrite !Hcode.
Qed.

Lemma get_event_time_prefix_witness :
  String.length "150914" = 6%nat
  /\ get_event_time ("GW" +:+ "150914") = get_event_time "150914".
Proof.
  split; [reflexivity|].
  exact (get_event_time_prefix "GW" "150914" eq_refl).
Defined.

(** ** Frame files *)

Section ReadFrameFileFacts.
Variable S : Type.
Variable read : string -> string -> R -> R -> read_result S.

(** Once something is loaded, the preset loop reads nothing more. *)
Lemma preset_loop_loaded file_name t1 t2 buffer_time channels strain log :
  preset_loop S read file_name t1 t2 buffer_time channels true strain log
  = (log, Return (true, strain)).
Proof. induction channels as [|c channels IH]; simpl; [reflexivity | exact IH]. Qed.

(** Channels that are not found are passed over in silence. *)
Lemma preset_loop_skip file_name t1 t2 buffer_time before channels strain log :
  (forall c, c ∈ before ->
     read file_name c (t1 - buffer_time) (t2 + buffer_time)
     = ReadRuntimeError) ->
  preset_loop S read file_name t1 t2 buffer_time (before ++ channels)
    false strain log
  = preset_loop S read file_name t1 t2 buffer_time channels false strain log.
Proof.
  induction before as [|c before IH]; intros Hnone; [reflexivity|].
  simpl. rewrite (Hnone c) by now left.
  apply IH. intros c' Hc'. apply Hnone. now right.
Qed.

(** A channel given by the caller that can be read is read with the
    times as given, and returned: whatever the preset channels hold,
    they are not read. *)
Theorem read_frame_file_explicit_channel
    (file_name channel : string) (t1 t2 buffer_time : R) (strain : S) :
  read file_name channel t1 t2 = ReadOk strain ->
  read_frame_file S read file_name t1 t2 (Some channel) buffer_time
  = ([INFO ("Successfully loaded " +:+ channel +:+ ".")],
     Return (Some strain)).
Proof.
  intros Hread. unfold read_frame_file. rewrite Hread.
  now rewrite preset_loop_loaded.
Qed.

(** Without a channel from the caller, the strain returned is the one of
    the first preset channel, in the order of the loops, that can be
    read with the buffered times. *)
Theorem read_frame_file_first_preset
    (file_name : string) (t1 t2 buffer_time : R)
    (before after : list string) (channel : string) (strain : S) :
  preset_channels = before ++ channel :: after ->
  (forall c, c ∈ before ->
     read file_name c (t1 - buffer_time) (t2 + buffer_time)
     = ReadRuntimeError) ->
  read file_name channel (t1 - buffer_time) (t2 + buffer_time)
  = ReadOk strain ->
  read_frame_file S read file_name t1 t2 None buffer_time
  = ([INFO ("Successfully loaded " +:+ channel +:+ ".")],
     Return (Some strain)).
Proof.
  intros Hsplit Hbefore Hread. unfold read_frame_file. rewrite Hsplit.
  rewrite (preset_loop_skip _ _ _ _ before) by exact Hbefore.
  cbn [preset_loop]. rewrite Hread. now rewrite preset_loop_loaded.
Qed.

(** When no preset channel is found, and the caller's channel, if there
    is one, is not found either, the function warns and returns [None]. *)
Theorem read_frame_file_nothing_found
    (file_name : string) (t1 t2 buffer_time : R) (channel : option string) :
  (forall c, channel = Some c -> read file_name c t1 t2 = ReadRuntimeError) ->
  (forall c, c ∈ preset_channels ->
     read file_name c (t1 - buffer_time) (t2 + buffer_time)
     = ReadRuntimeError) ->
  read_frame_file S read file_name t1 t2 channel buffer_time
  = (match channel with
     | Some c => [WARNING ("Channel " +:+ c
                           +:+ " not found. Trying preset channel names")]
     | None => []
     end ++ [WARNING "No data loaded."],
     Return None).
Proof.
  intros Hgiven Hpresets. unfold read_frame_file.
  assert (Hloop : forall strain log,
    preset_loop S read file_name t1 t2 buffer_time preset_channels
      false strain log = (log, Return (false, strain))).
  { intros strain log.
    rewrite <- (app_nil_r preset_channels).
    now rewrite (preset_loop_skip _ _ _ _ preset_channels []). }
  destruct channel as [c|].
  - rewrite (Hgiven c eq_refl). now rewrite Hloop.
  - now rewrite Hloop.
Qed.
End ReadFrameFileFacts.

Lemma read_frame_file_explicit_channel_witness :
  example_read "frame.gwf" "L1:GDS-CALIB_STRAIN" 0 4 = ReadOk 7%nat
  /\ read_frame_file nat example_read "frame.gwf" 0 4
       (Some "L1:GDS-CALIB_STRAIN") 1
     = ([INFO ("Successfully loaded " +:+ "L1:GDS-CALIB_STRAIN" +:+ ".")],
        Return (Some 7%nat)).
Proof.
  split; [reflexivity|].
  exact (read_frame_file_explicit_channel nat example_read "frame.gwf"
           "L1:GDS-CALIB_STRAIN" 0 4 1 7%nat eq_refl).
Defined.

Lemma read_frame_file_first_preset_witness :
  read_frame_file nat example_read "frame.gwf" 0 4 None 1
  = ([INFO ("Successfully loaded " +:+ "L1:GDS-CALIB_STRAIN" +:+ ".")],
     Return (Some 7%nat)).
Proof.
  apply (read_frame_file_first_preset nat example_read "frame.gwf" 0 4 1
           ["H1:GDS-CALIB_STRAIN"]
           ["H1:DCS-CALIB_STRAIN_C01"; "L1:DCS-CALIB_STRAIN_C01";
            "H1:DCS-CALIB_STRAIN_C02"; "L1:DCS-CALIB_STRAIN_C02"]
           "L1:GDS-CALIB_STRAIN" 7%nat).
  - reflexivity.
  - intros c Hc. apply list_elem_of_singleton in Hc as ->. reflexivity.
  - reflexivity.
Defined.

Lemma read_frame_file_nothing_found_witness :
  read_frame_file nat (fun _ _ _ _ => ReadRuntimeError) "frame.gwf" 0 4
    (Some "H1:STRAIN") 1
  = ([WARNING ("Channel " +:+ "H1:STRAIN"
               +:+ " not found. Trying preset channel names")]
     ++ [WARNING "No data loaded."],
     Return None).
Proof.
  apply (read_frame_file_nothing_found nat (fun _ _ _ _ => ReadRuntimeError)
           "frame.gwf" 0 4 1 (Some "H1:STRAIN")).
  - intros c _. reflexivity.
  - intros c _. reflexivity.
Defined.

(** ** Likelihoods: what the classes inherit *)

Lemma fsub_nan (x : float) : fsub x S754_nan = S754_nan.
Proof. destruct x as [s | s | | s m e]; reflexivity. Qed.

(** The likelihood ratio of a class that keeps the base
    [noise_log_likelihood], as both classes of the module do, is NaN
    whenever its log-likelihood returns. *)
Theorem log_likelihood_ratio_inherited_noise_is_nan (l : float) :
  Likelihood.log_likelihood_ratio (Return l) Likelihood.noise_log_likelihood
  = Return S754_nan.
Proof.
  unfold Likelihood.log_likelihood_ratio, Likelihood.noise_log_likelihood.
  cbn [mbind py_bind]. now rewrite fsub_nan.
Qed.

(** ** The Gaussian likelihood, further *)

Lemma np_binop_array_same_length (f : R -> R -> R) (l1 l2 : list R) :
  length l1 = length l2 ->
  np_binop f (Array l1) (Array l2) = Return (Array (zip_with f l1 l2)).
Proof.
  intros Hlen. cbn [np_binop]. now rewrite broadcast_same_length.
Qed.

(** With a noise scale given point by point, what [log_likelihood]
    returns is an array, one entry per point: the sum of the squared
    scaled residuals is shared, the normalisation term is that of the
    point. *)
Theorem gaussian_log_likelihood_per_point_sigma
    (self : GaussianLikelihood.t) (sigmas : list R)
    (model_parameters : gmap string value) (fx : list R) :
  default (GaussianLikelihood.sigma self)
    (GaussianLikelihood.parameters self !! "sigma") = Array sigmas ->
  dict_comprehension (GaussianLikelihood.function_keys self)
    (GaussianLikelihood.parameters self) = Return model_parameters ->
  call (GaussianLikelihood.function self) (GaussianLikelihood.x self)
    model_parameters = Return (Array fx) ->
  length fx = length (GaussianLikelihood.y self) ->
  length sigmas = length (GaussianLikelihood.y self) ->
  GaussianLikelihood.log_likelihood self
  = Return (Array (map
      (fun s => - 0.5 * (np_sum (map (fun r => r ^ 2)
                           (zip_with Rdiv
                              (zip_with Rminus (GaussianLikelihood.y self) fx)
                              sigmas))
                         + INR (GaussianLikelihood.N self)
                           * ln (2 * PI * s ^ 2)))
      sigmas)).
Proof.
  intros Hs Hparams Hcall Hfx Hsig.
  unfold GaussianLikelihood.log_likelihood.
  rewrite Hs, Hparams. cbn [mbind py_bind]. rewrite Hcall.
  cbn [mbind py_bind].
  rewrite np_binop_array_same_length by now symmetry.
  cbn [mbind py_bind].
  rewrite np_binop_array_same_length
    by (rewrite length_zip_with, Hfx, Nat.min_id; now symmetry).
  cbn [mbind py_bind np_binop np_unop np_sum_value].
  rewrite !map_map. reflexivity.
Qed.

Lemma gaussian_log_likelihood_per_point_sigma_witness :
  exists self : GaussianLikelihood.t,
    (self0 ← GaussianLikelihood.__init__ [0; 1; 2] [0; 1; 2] linear_model
               (Array [1; 2; 4]);
     Return (set_parameters self0 [("m", Float 1); ("c", Float 0)]))
    = Return self
    /\ exists l : list R,
      GaussianLikelihood.log_likelihood self = Return (Array l)
      /\ length l = 3%nat.
Proof.
  eexists. split; [reflexivity|].
  eexists. split.
  - apply (gaussian_log_likelihood_per_point_sigma _ [1; 2; 4]
             (<["c" := Float 0]> (<["m" := Float 1]> ∅))
             [1 * 0 + 0; 1 * 1 + 0; 1 * 2 + 0]).
    + reflexivity.
    + cbn [GaussianLikelihood.function_keys GaussianLikelihood.parameters
           GaussianLikelihood.set_parameter set_parameters foldl fst snd].
      rewrite example_function_keys. reflexivity.
    + cbn [GaussianLikelihood.function GaussianLikelihood.x
           GaussianLikelihood.set_parameter set_parameters foldl].
      unfold call. cbn [args linear_model].
      rewrite decide_False, decide_True.
      * reflexivity.
      * rewrite !dom_insert_L, dom_empty_L. cbn [list_to_set foldr].
        now rewrite !(right_id_L ∅ (∪)), (comm_L (∪)).
      * rewrite !dom_insert_L, dom_empty_L.
        rewrite !elem_of_union, !elem_of_singleton, elem_of_empty.
        intros [H | [H | H]]; [discriminate H | discriminate H | exact H].
    + reflexivity.
    + reflexivity.
  - reflexivity.
Defined.

(** While the noise scale in force is [None] —the likelihood was built
    without one and the sampler has not set it— [log_likelihood] does
    not return. *)
Theorem gaussian_log_likelihood_sigma_unset (self : GaussianLikelihood.t) :
  default (GaussianLikelihood.sigma self)
    (GaussianLikelihood.parameters self !! "sigma") = PyNone ->
  raised (GaussianLikelihood.log_likelihood self) = true.
Proof.
  intros Hs. unfold GaussianLikelihood.log_likelihood. rewrite Hs.
  destruct (dict_comprehension _ _) as [mp | e];
    cbn [mbind py_bind]; [|reflexivity].
  destruct (call _ _ mp) as [fx | e]; cbn [mbind py_bind]; [|reflexivity].
  destruct (np_binop Rminus _ fx) as [res | e];
    cbn [mbind py_bind]; [|reflexivity].
  destruct res; reflexivity.
Qed.

Lemma gaussian_log_likelihood_sigma_unset_witness :
  exists self : GaussianLikelihood.t,
    GaussianLikelihood.__init__ [0; 1; 2] [0; 1; 2] linear_model PyNone
    = Return self
    /\ raised (GaussianLikelihood.log_likelihood
                 (set_parameters self [("m", Float 1); ("c", Float 0)]))
       = true.
Proof.
  eexists. split; [reflexivity|].
  apply gaussian_log_likelihood_sigma_unset. reflexivity.
Defined.

(** A fit parameter that is no longer in the mapping is a [KeyError]
    naming a missing key, before the model is called. *)
Theorem gaussian_log_likelihood_missing_key
    (self : GaussianLikelihood.t) (key : string) :
  key ∈ GaussianLikelihood.function_keys self ->
  GaussianLikelihood.parameters self !! key = None ->
  exists missing : string,
    GaussianLikelihood.log_likelihood self = Raise (KeyError missing)
    /\ missing ∈ GaussianLikelihood.function_keys self
    /\ GaussianLikelihood.parameters self !! missing = None.
Proof.
  intros Hin Hnone. unfold GaussianLikelihood.log_likelihood.
  assert (Hcomp : exists missing,
    dict_comprehension (GaussianLikelihood.function_keys self)
      (GaussianLikelihood.parameters self) = Raise (KeyError missing)
    /\ missing ∈ GaussianLikelihood.function_keys self
    /\ GaussianLikelihood.parameters self !! missing = None).
  { induction (GaussianLikelihood.function_keys self) as [|k keys IH];
      [inversion Hin|].
    cbn [dict_comprehension].
    destruct (GaussianLikelihood.parameters self !! k) as [v|] eqn:Hk.
    - apply elem_of_cons in Hin as [-> | Hin]; [congruence|].
      destruct (IH Hin) as (missing & Hm & Hmin & Hmnone).
      exists missing. rewrite Hm. cbn [mbind py_bind].
      split; [reflexivity|]. split; [now right | exact Hmnone].
    - exists k. split; [reflexivity|]. split; [now left | exact Hk]. }
  destruct Hcomp as (missing & Hm & Hmin & Hmnone).
  exists missing. now rewrite Hm.
Qed.

Lemma gaussian_log_likelihood_missing_key_witness :
  exists self : GaussianLikelihood.t,
    GaussianLikelihood.__init__ [0; 1; 2] [0; 1; 2] linear_model (Float 1)
    = Return self
    /\ exists missing : string,
      GaussianLikelihood.log_likelihood
        {| GaussianLikelihood.x := GaussianLikelihood.x self;
           GaussianLikelihood.y := GaussianLikelihood.y self;
           GaussianLikelihood.N := GaussianLikelihood.N self;
           GaussianLikelihood.sigma := GaussianLikelihood.sigma self;
           GaussianLikelihood.function := GaussianLikelihood.function self;
           GaussianLikelihood.parameters :=
             delete "m" (GaussianLikelihood.parameters self);
           GaussianLikelihood.function_keys :=
             GaussianLikelihood.function_keys self |}
      = Raise (KeyError missing)
      /\ missing ∈ ["c"; "m"].
Proof.
  eexists. split; [reflexivity|].
  cbn [GaussianLikelihood.x GaussianLikelihood.y GaussianLikelihood.N
       GaussianLikelihood.sigma GaussianLikelihood.function
       GaussianLikelihood.parameters GaussianLikelihood.function_keys].
  rewrite example_function_keys.
  destruct (gaussian_log_likelihood_missing_key
              {| GaussianLikelihood.x := [0; 1; 2];
                 GaussianLikelihood.y := [0; 1; 2];
                 GaussianLikelihood.N := length [0; 1; 2];
                 GaussianLikelihood.sigma := Float 1;
                 GaussianLikelihood.function := linear_model;
                 GaussianLikelihood.parameters :=
                   delete "m" (dict_fromkeys ["m"; "c"]);
                 GaussianLikelihood.function_keys := ["c"; "m"] |} "m")
    as (missing & Hraise & Hin & _).
  - cbn [GaussianLikelihood.function_keys]. apply list_elem_of_In.
    simpl. auto.
  - cbn [GaussianLikelihood.parameters]. apply lookup_delete_eq.
  - exists missing. split; [exact Hraise | exact Hin].
Defined.

Lemma dict_comprehension_insert_other (keys : list string)
    (d : gmap string value) (key : string) (v : value) :
  key ∉ keys ->
  dict_comprehension keys (<[key := v]> d) = dict_comprehension keys d.
Proof.
  induction keys as [|k keys IH]; intros Hnotin; [reflexivity|].
  cbn [dict_comprehension].
  rewrite lookup_insert_ne by (intros ->; apply Hnotin; now left).
  rewrite IH by (intros Hin; apply Hnotin; now right).
  reflexivity.
Qed.

(** An entry of the parameter mapping that is neither a fit parameter
    nor "sigma" has no effect on the log-likelihood. *)
Theorem gaussian_log_likelihood_ignores_other_keys
    (self : GaussianLikelihood.t) (key : string) (v : value) :
  key ∉ GaussianLikelihood.function_keys self ->
  key <> "sigma" ->
  GaussianLikelihood.log_likelihood
    (GaussianLikelihood.set_parameter self key v)
  = GaussianLikelihood.log_likelihood self.
Proof.
  intros Hnotin Hsigma. unfold GaussianLikelihood.log_likelihood.
  cbn [GaussianLikelihood.set_parameter GaussianLikelihood.parameters
       GaussianLikelihood.function_keys GaussianLikelihood.sigma
       GaussianLikelihood.function GaussianLikelihood.x
       GaussianLikelihood.y GaussianLikelihood.N].
  rewrite lookup_insert_ne by exact Hsigma.
  now rewrite dict_comprehension_insert_other.
Qed.

Lemma gaussian_log_likelihood_ignores_other_keys_witness :
  exists self : GaussianLikelihood.t,
    example_gaussian = Return self
    /\ GaussianLikelihood.log_likelihood
         (GaussianLikelihood.set_parameter self "unused" (Float 3))
       = GaussianLikelihood.log_likelihood self.
Proof.
  eexists. split; [reflexivity|].
  apply gaussian_log_likelihood_ignores_other_keys.
  - cbn [GaussianLikelihood.function_keys GaussianLikelihood.set_parameter].
    rewrite example_function_keys. intros H.
    apply list_elem_of_In in H. simpl in H.
    destruct H as [H | [H | H]]; [discriminate H | discriminate H | exact H].
  - discriminate.
Defined.

Lemma dict_fromkeys_lookup_in (keys : list string) (k : string) :
  k ∈ keys -> dict_fromkeys keys !! k = Some PyNone.
Proof.
  intros Hin.
  assert (Hdom : k ∈ dom (dict_fromkeys keys))
    by (rewrite dom_dict_fromkeys, elem_of_list_to_set; exact Hin).
  apply elem_of_dom in Hdom as [v Hv].
  now rewrite Hv, (dict_fromkeys_lookup keys k v Hv).
Qed.

(** Two likelihoods that differ in the construction-time noise scale
    only, and whose mapping has a "sigma" entry, have one
    log-likelihood. *)
Lemma gaussian_sigma_field_unread (self1 self2 : GaussianLikelihood.t) :
  GaussianLikelihood.x self1 = GaussianLikelihood.x self2 ->
  GaussianLikelihood.y self1 = GaussianLikelihood.y self2 ->
  GaussianLikelihood.N self1 = GaussianLikelihood.N self2 ->
  GaussianLikelihood.function self1 = GaussianLikelihood.function self2 ->
  GaussianLikelihood.parameters self1 = GaussianLikelihood.parameters self2 ->
  GaussianLikelihood.function_keys self1
  = GaussianLikelihood.function_keys self2 ->
  is_Some (GaussianLikelihood.parameters self1 !! "sigma") ->
  GaussianLikelihood.log_likelihood self1
  = GaussianLikelihood.log_likelihood self2.
Proof.
  intros Hx Hy HN Hf Hp Hk [v Hv]. unfold GaussianLikelihood.log_likelihood.
  rewrite <- Hx, <- Hy, <- HN, <- Hf, <- Hp, <- Hk, Hv. reflexivity.
Qed.

(** When the model function has itself an argument named "sigma", the
    noise scale given at construction is never used: whatever it was,
    and whatever the sampler sets afterwards, the log-likelihood is the
    same. *)
Theorem gaussian_sigma_argument_overrides
    (x y : list R) (function : pyfunction) (sigma1 sigma2 : value)
    (first : string) (rest : list string)
    (self1 self2 : GaussianLikelihood.t)
    (updates : list (string * value)) :
  args function = first :: rest -> "sigma" ∈ rest ->
  GaussianLikelihood.__init__ x y function sigma1 = Return self1 ->
  GaussianLikelihood.__init__ x y function sigma2 = Return self2 ->
  GaussianLikelihood.log_likelihood (set_parameters self1 updates)
  = GaussianLikelihood.log_likelihood (set_parameters self2 updates).
Proof.
  intros Hargs Hin H1 H2.
  unfold GaussianLikelihood.__init__ in H1, H2. rewrite Hargs in H1, H2.
  pose proof (dict_fromkeys_lookup_in rest "sigma" Hin) as Hlook.
  assert (Hid : <["sigma" := PyNone]> (dict_fromkeys rest)
                = dict_fromkeys rest) by now apply insert_id.
  assert (Hp1 : GaussianLikelihood.parameters self1 = dict_fromkeys rest)
    by (injection H1 as <-; destruct sigma1; [exact Hid | reflexivity ..]).
  assert (Hp2 : GaussianLikelihood.parameters self2 = dict_fromkeys rest)
    by (injection H2 as <-; destruct sigma2; [exact Hid | reflexivity ..]).
  assert (Hinv :
    GaussianLikelihood.x self1 = GaussianLikelihood.x self2
    /\ GaussianLikelihood.y self1 = GaussianLikelihood.y self2
    /\ GaussianLikelihood.N self1 = GaussianLikelihood.N self2
    /\ GaussianLikelihood.function self1 = GaussianLikelihood.function self2
    /\ GaussianLikelihood.parameters self1
       = GaussianLikelihood.parameters self2
    /\ GaussianLikelihood.function_keys self1
       = GaussianLikelihood.function_keys self2
    /\ is_Some (GaussianLikelihood.parameters self1 !! "sigma")).
  { rewrite Hp1, Hp2, Hlook.
    injection H1 as <-. injection H2 as <-. repeat split. eauto. }
  clear H1 H2 Hp1 Hp2. unfold set_parameters.
  revert self1 self2 Hinv.
  induction updates as [|[k v] updates IH]; intros self1 self2 Hinv.
  - destruct Hinv as (Hx & Hy & HN & Hf & Hp & Hk & Hs).
    now apply gaussian_sigma_field_unread.
  - cbn [foldl]. apply IH.
    destruct Hinv as (Hx & Hy & HN & Hf & Hp & Hk & Hs).
    cbn [GaussianLikelihood.set_parameter GaussianLikelihood.parameters
         GaussianLikelihood.function_keys GaussianLikelihood.sigma
         GaussianLikelihood.function GaussianLikelihood.x
         GaussianLikelihood.y GaussianLikelihood.N fst snd].
    rewrite Hp. repeat split; try assumption.
    destruct (decide (k = "sigma")) as [-> | Hne].
    + rewrite lookup_insert_eq. eauto.
    + rewrite lookup_insert_ne by exact Hne. now rewrite <- Hp.
Qed.

Lemma gaussian_sigma_argument_overrides_witness :
  args constant_model = "x" :: ["mu"; "sigma"]
  /\ "sigma" ∈ ["mu"; "sigma"]
  /\ exists self1 self2 : GaussianLikelihood.t,
    GaussianLikelihood.__init__ [0; 1] [0; 1] constant_model (Float 1)
      = Return self1
    /\ GaussianLikelihood.__init__ [0; 1] [0; 1] constant_model (Float 5)
       = Return self2
    /\ GaussianLikelihood.log_likelihood
         (set_parameters self1 [("mu", Float 0); ("sigma", Float 2)])
       = GaussianLikelihood.log_likelihood
           (set_parameters self2 [("mu", Float 0); ("sigma", Float 2)]).
Proof.
  assert (Hin : "sigma" ∈ ["mu"; "sigma"])
    by (apply list_elem_of_In; simpl; auto).
  split; [reflexivity|]. split; [exact Hin|].
  do 2 eexists. split; [reflexivity|]. split; [reflexivity|].
  exact (gaussian_sigma_argument_overrides [0; 1] [0; 1] constant_model
           (Float 1) (Float 5) "x" ["mu"; "sigma"] _ _
           [("mu", Float 0); ("sigma", Float 2)]
           eq_refl Hin eq_refl eq_refl).
Defined.

(** ** The hyper-parameter likelihood, further *)

(** The inherited likelihood ratio of a hyper-parameter likelihood is
    NaN whenever its log-likelihood returns, finite as that is. *)
Theorem hyper_log_likelihood_ratio_is_nan
    (np_log : float -> float) (self self' : HyperparameterLikelihood.t)
    (v : float) :
  HyperparameterLikelihood.log_likelihood np_log self = Return (v, self') ->
  hyper_log_likelihood_ratio np_log self = Return (S754_nan, self').
Proof.
  intros Hll. unfold hyper_log_likelihood_ratio. rewrite Hll.
  unfold Likelihood.noise_log_likelihood. cbn [mbind py_bind].
  now rewrite fsub_nan.
Qed.

Lemma hyper_log_likelihood_ratio_is_nan_witness :
  exists (v : float) (self' : HyperparameterLikelihood.t),
    HyperparameterLikelihood.log_likelihood example_log example_hyper
      = Return (v, self')
    /\ hyper_log_likelihood_ratio example_log example_hyper
       = Return (S754_nan, self').
Proof.
  do 2 eexists. split; [reflexivity|].
  apply (hyper_log_likelihood_ratio_is_nan example_log example_hyper _
           (nan_to_num
              (fadd (np_fsum (map example_log
                       (np_fsum_last_axis
                          (zip_with (zip_with fdiv)
                             [[fzero; fzero]] [[fzero; fzero]]))))
                 fzero))).
  reflexivity.
Defined.

(** A second call of [log_likelihood] returns the value of the first
    and changes nothing more: the update of the model's parameters is
    done once and for all. *)
Theorem hyper_log_likelihood_idempotent
    (np_log : float -> float) (self self' : HyperparameterLikelihood.t)
    (v : float) :
  HyperparameterLikelihood.log_likelihood np_log self = Return (v, self') ->
  HyperparameterLikelihood.log_likelihood np_log self' = Return (v, self').
Proof.
  unfold HyperparameterLikelihood.log_likelihood.
  destruct (HyperparameterLikelihood.parameters self) as [ps|] eqn:Hps;
    [|discriminate].
  set (updated := HyperparameterLikelihood.update_model self ps).
  assert (Hfix : HyperparameterLikelihood.update_model updated ps = updated).
  { unfold updated, HyperparameterLikelihood.update_model.
    cbn [HyperparameterLikelihood.model model_parameters model_prob
         HyperparameterLikelihood.posteriors
         HyperparameterLikelihood.sampling_prior
         HyperparameterLikelihood.max_samples HyperparameterLikelihood.data
         HyperparameterLikelihood.n_posteriors
         HyperparameterLikelihood.samples_per_posterior
         HyperparameterLikelihood.log_factor].
    now rewrite (assoc_L (∪)), (idemp_L (∪)). }
  intros Hfirst.
  assert (Hself' : self' = updated).
  { destruct (model_prob _ _ _) as [p | e]; cbn [mbind py_bind] in Hfirst;
      [|discriminate].
    destruct (call_method _) as [f|]; [|discriminate].
    destruct (f _) as [q | e]; cbn [mbind py_bind] in Hfirst; [|discriminate].
    destruct (broadcast2 fdiv p q) as [ratio | e];
      cbn [mbind py_bind] in Hfirst; [|discriminate].
    now injection Hfirst as _ <-. }
  rewrite Hself'.
  change (HyperparameterLikelihood.parameters updated) with (Some ps).
  cbv iota. rewrite Hfix. rewrite Hself' in Hfirst. exact Hfirst.
Qed.

Lemma hyper_log_likelihood_idempotent_witness :
  exists (v : float) (self' : HyperparameterLikelihood.t),
    HyperparameterLikelihood.log_likelihood example_log example_hyper
      = Return (v, self')
    /\ HyperparameterLikelihood.log_likelihood example_log self'
       = Return (v, self').
Proof.
  do 2 eexists. split; [reflexivity|].
  apply (hyper_log_likelihood_idempotent example_log example_hyper).
  reflexivity.
Defined.

(** *** Resampling *)

Lemma choose_length {A} (k : nat) (pool : list A) (pick : nat -> nat) :
  (k <= length pool)%nat -> length (choose k pool pick) = k.
Proof.
  revert pool. induction k as [|k IH]; intros pool Hle; [reflexivity|].
  destruct pool as [|row pool]; [simpl in Hle; lia|].
  cbn [choose]. set (i := (pick k mod length (row :: pool))%nat).
  assert (Hi : (i < length (row :: pool))%nat)
    by (apply Nat.mod_upper_bound; simpl; lia).
  cbn [length]. f_equal. apply IH.
  rewrite length_delete by now apply lookup_lt_is_Some.
  simpl in *. lia.
Qed.

Lemma sample_returns (posterior : DataFrame) (n : cap) (pick : nat -> nat) :
  (forall f, n <> FloatCap f) ->
  (rows_asked n <= len posterior)%nat ->
  exists temp : DataFrame,
    sample posterior n pick = Return temp
    /\ columns temp = columns posterior
    /\ length (rows temp) = rows_asked n.
Proof.
  intros Hint Hle. unfold sample.
  destruct n as [|k|f]; [| |now contradiction (Hint f)].
  - cbn [rows_asked] in Hle.
    destruct (Nat.ltb_spec (len posterior) 1); [lia|].
    eexists. split; [reflexivity|]. split; [reflexivity|].
    cbn [rows]. now apply choose_length.
  - cbn [rows_asked] in Hle.
    destruct (Nat.ltb_spec (len posterior) k); [lia|].
    eexists. split; [reflexivity|]. split; [reflexivity|].
    cbn [rows]. now apply choose_length.
Qed.

Lemma getitem_returns (posterior : DataFrame) (key : string) :
  key ∈ columns posterior ->
  exists column : list float,
    getitem posterior key = Return column
    /\ length column = length (rows posterior).
Proof.
  intros Hin. unfold getitem.
  assert (Hidx : is_Some (column_index key (columns posterior))).
  { induction (columns posterior) as [|c cols IH]; [inversion Hin|].
    cbn [column_index]. destruct (String.eqb_spec c key) as [-> | Hne].
    - eauto.
    - apply elem_of_cons in Hin as [-> | Hin]; [congruence|].
      destruct (IH Hin) as [j Hj]. rewrite Hj. simpl. eauto. }
  destruct Hidx as [j Hj]. rewrite Hj.
  eexists. split; [reflexivity|]. apply length_map.
Qed.

(** One pass of the inner loop appends one column to the array of every
    key it visits, and leaves the other keys alone. *)
Lemma append_columns_spec (keys : list string) (temp : DataFrame)
    (data : gmap string (list (list float))) :
  NoDup keys ->
  (forall k, k ∈ keys -> k ∈ columns temp) ->
  exists data' : gmap string (list (list float)),
    HyperparameterLikelihood.append_columns keys temp data = Return data'
    /\ dom data' = dom data ∪ list_to_set keys
    /\ (forall k, k ∉ keys -> data' !! k = data !! k)
    /\ (forall k, k ∈ keys ->
          exists column,
            getitem temp k = Return column
            /\ data' !! k = Some (default [] (data !! k) ++ [column])).
Proof.
  revert data. induction keys as [|key keys IH]; intros data Hnodup Hcols.
  - exists data. split; [reflexivity|].
    split; [cbn [list_to_set foldr]; now rewrite (right_id_L ∅ (∪))|].
    split; [reflexivity|]. intros k Hk. inversion Hk.
  - apply NoDup_cons in Hnodup as [Hnotin Hnodup].
    destruct (getitem_returns temp key) as (column & Hcol & _);
      [apply Hcols; now left|].
    destruct (IH (<[key := default [] (data !! key) ++ [column]]> data)
                Hnodup) as (data' & Hrun & Hdom & Hother & Hkeys).
    { intros k Hk. apply Hcols. now right. }
    exists data'. cbn [HyperparameterLikelihood.append_columns].
    rewrite Hcol. cbn [mbind py_bind]. split; [exact Hrun|].
    split.
    { rewrite Hdom, dom_insert_L. cbn [list_to_set foldr].
      now rewrite (comm_L (∪) {[key]} (dom data)), <- (assoc_L (∪)). }
    split.
    + intros k Hk. rewrite Hother by (intros Hin; apply Hk; now right).
      apply lookup_insert_ne. intros ->. apply Hk. now left.
    + intros k Hk. apply elem_of_cons in Hk as [-> | Hk].
      * exists column. split; [exact Hcol|].
        rewrite (Hother key Hnotin). apply lookup_insert_eq.
      * destruct (Hkeys k Hk) as (column' & Hcol' & Hlook).
        exists column'. split; [exact Hcol'|].
        rewrite Hlook, lookup_insert_ne; [reflexivity|].
        intros ->. contradiction.
Qed.

(** The second loop adds one row of the asked number of samples per
    event to every array. *)
Lemma sample_all_shaped (posteriors : list DataFrame) (n : cap)
    (rnd : nat -> nat -> nat) (i : nat)
    (data : gmap string (list (list float))) (events : nat) :
  (forall f, n <> FloatCap f) ->
  shaped events (rows_asked n) data ->
  (forall p, p ∈ posteriors ->
     (rows_asked n <= len p)%nat
     /\ forall k, k ∈ dom data -> k ∈ columns p) ->
  exists data' : gmap string (list (list float)),
    HyperparameterLikelihood.sample_all posteriors n rnd i data
    = Return data'
    /\ dom data' = dom data
    /\ shaped (events + length posteriors) (rows_asked n) data'.
Proof.
  intros Hint. revert i data events.
  induction posteriors as [|p posteriors IH];
    intros i data events Hshaped Hall.
  - exists data. split; [reflexivity|]. split; [reflexivity|].
    now rewrite Nat.add_0_r.
  - destruct (Hall p) as [Hrows Hcols]; [now left|].
    destruct (sample_returns p n (rnd i) Hint Hrows)
      as (temp & Hsample & Htcols & Htrows).
    destruct (append_columns_spec (elements (dom data)) temp data)
      as (data1 & Happ & Hdom1 & _ & Hkeys1).
    { apply NoDup_elements. }
    { intros k Hk. rewrite Htcols. apply Hcols.
      now apply elem_of_elements in Hk. }
    assert (Hdom1' : dom data1 = dom data).
    { rewrite Hdom1, list_to_set_elements_L. apply (idemp_L (∪)). }
    assert (Hshaped1 : shaped (S events) (rows_asked n) data1).
    { intros key array Hlook.
      assert (Hin : key ∈ dom data)
        by (rewrite <- Hdom1'; apply elem_of_dom; eauto).
      destruct (Hkeys1 key) as (column & Hcol & Hlook1);
        [now apply elem_of_elements|].
      rewrite Hlook in Hlook1. injection Hlook1 as ->.
      apply elem_of_dom in Hin as [old Hold]. rewrite Hold.
      change (default [] (Some old)) with old.
      destruct (Hshaped key old Hold) as [Hlen Hrowsold].
      destruct (getitem_returns temp key) as (column' & Hcol' & Hlen');
        [rewrite Htcols; apply Hcols; apply elem_of_dom; eauto|].
      rewrite Hcol in Hcol'. injection Hcol' as <-.
      split.
      - rewrite length_app, Hlen. simpl. lia.
      - apply Forall_app. split; [exact Hrowsold|].
        constructor; [|constructor]. now rewrite Hlen'. }
    destruct (IH (S i) data1 (S events) Hshaped1)
      as (data' & Hrun & Hdom' & Hshaped').
    { intros p' Hp'. destruct (Hall p') as [Hr Hc]; [now right|].
      split; [exact Hr|]. intros k Hk. apply Hc. now rewrite <- Hdom1'. }
    exists data'. cbn [HyperparameterLikelihood.sample_all].
    rewrite Hsample. cbn [mbind py_bind]. rewrite Happ. cbn [mbind py_bind].
    split; [exact Hrun|]. split; [now rewrite Hdom', Hdom1'|].
    cbn [length]. now rewrite <- Nat.add_succ_comm.
Qed.

Lemma initial_data_shaped (keys : list string) (samples : nat) :
  shaped 0 samples (list_to_map ((fun key => (key, [])) <$> keys)).
Proof.
  intros key array Hlook. apply elem_of_list_to_map_2 in Hlook.
  apply list_elem_of_fmap in Hlook as (k & Heq & _).
  injection Heq as _ ->. split; [reflexivity | constructor].
Qed.

Lemma initial_data_dom (keys : list string) :
  dom (list_to_map ((fun key => (key, [])) <$> keys)
         : gmap string (list (list float)))
  = list_to_set keys.
Proof.
  rewrite dom_list_to_map_L, <- list_fmap_compose. f_equal.
  induction keys as [|k keys IH]; simpl; [reflexivity | now f_equal].
Qed.

(** Resampling with an explicit number of samples, or with none, on
    events that all have that many rows and the columns of the first
    event: the data has the columns of the first event as keys, and
    every array has one row per event, each of the asked number of
    samples. *)
Theorem resample_posteriors_shape
    (first : DataFrame) (rest : list DataFrame)
    (self_max_samples n : cap) (rnd : nat -> nat -> nat) :
  (forall f, n <> FloatCap f) ->
  (forall p, p ∈ first :: rest ->
     (rows_asked n <= len p)%nat
     /\ forall k, k ∈ columns first -> k ∈ columns p) ->
  exists (max_samples' : cap) (data : gmap string (list (list float))),
    HyperparameterLikelihood.resample_posteriors (first :: rest)
      self_max_samples n rnd = Return (max_samples', data)
    /\ dom data = list_to_set (columns first)
    /\ shaped (length (first :: rest)) (rows_asked n) data.
Proof.
  intros Hint Hall. unfold HyperparameterLikelihood.resample_posteriors.
  destruct (sample_all_shaped (first :: rest) n rnd 0
              (list_to_map ((fun key => (key, [])) <$> columns first)) 0
              Hint (initial_data_shaped _ _))
    as (data & Hrun & Hdom & Hshaped).
  { intros p Hp. destruct (Hall p Hp) as [Hr Hc]. split; [exact Hr|].
    intros k Hk. apply Hc. rewrite initial_data_dom in Hk.
    now apply elem_of_list_to_set in Hk. }
  rewrite Hrun. cbn [mbind py_bind]. do 2 eexists.
  split; [reflexivity|]. split; [now rewrite Hdom, initial_data_dom|].
  exact Hshaped.
Qed.

Lemma resample_posteriors_shape_witness :
  exists (max_samples' : cap) (data : gmap string (list (list float))),
    HyperparameterLikelihood.resample_posteriors
      [posterior_500; posterior_300] (IntCap 300) (IntCap 300)
      (fun _ _ => 0%nat) = Return (max_samples', data)
    /\ dom data = list_to_set (columns posterior_500)
    /\ shaped (length [posterior_500; posterior_300])
         (rows_asked (IntCap 300)) data.
Proof.
  apply (resample_posteriors_shape posterior_500 [posterior_300]
           (IntCap 300) (IntCap 300) (fun _ _ => 0%nat)).
  - discriminate.
  - intros p Hp.
    apply elem_of_cons in Hp as [-> | Hp];
      [|apply list_elem_of_singleton in Hp as ->].
    + split; [|tauto].
      unfold len, posterior_500. cbn [rows rows_asked].
      rewrite length_replicate. lia.
    + split; [|tauto].
      unfold len, posterior_300. cbn [rows rows_asked].
      rewrite length_replicate. lia.
Defined.

Lemma sample_all_too_few_rows (posteriors : list DataFrame) (k : nat)
    (rnd : nat -> nat -> nat) (i : nat)
    (data : gmap string (list (list float))) :
  (exists p, p ∈ posteriors /\ (len p < k)%nat) ->
  raised (HyperparameterLikelihood.sample_all posteriors (IntCap k) rnd i data)
  = true.
Proof.
  revert i data. induction posteriors as [|p0 posteriors IH];
    intros i data (p & Hin & Hlt); [inversion Hin|].
  cbn [HyperparameterLikelihood.sample_all]. unfold sample.
  destruct (Nat.ltb_spec (len p0) k) as [Hsmall | Hbig];
    [reflexivity|]. cbn [mbind py_bind].
  destruct (HyperparameterLikelihood.append_columns _ _ data)
    as [data' | e]; cbn [mbind py_bind]; [|reflexivity].
  apply IH. exists p. split; [|exact Hlt].
  apply elem_of_cons in Hin as [-> | Hin]; [lia | exact Hin].
Qed.

(** With an explicit number of samples, an event that has fewer rows
    makes the resampling fail: the events are not cut down to the
    smallest of them. *)
Theorem resample_posteriors_too_few_rows
    (posteriors : list DataFrame) (self_max_samples : cap) (k : nat)
    (rnd : nat -> nat -> nat) :
  (exists p, p ∈ posteriors /\ (len p < k)%nat) ->
  raised (HyperparameterLikelihood.resample_posteriors posteriors
            self_max_samples (IntCap k) rnd) = true.
Proof.
  intros Hsmall. unfold HyperparameterLikelihood.resample_posteriors.
  destruct posteriors as [|first rest]; [reflexivity|].
  pose proof (sample_all_too_few_rows (first :: rest) k rnd 0
                (list_to_map ((fun key => (key, [])) <$> columns first))
                Hsmall) as Hraised.
  destruct (HyperparameterLikelihood.sample_all _ _ _ _ _);
    [discriminate Hraised | reflexivity].
Qed.

Lemma resample_posteriors_too_few_rows_witness :
  (exists p, p ∈ [posterior_500; posterior_2] /\ (len p < 300)%nat)
  /\ raised (HyperparameterLikelihood.resample_posteriors
               [posterior_500; posterior_2] (IntCap 300) (IntCap 300)
               (fun _ _ => 0%nat)) = true.
Proof.
  assert (H : exists p, p ∈ [posterior_500; posterior_2]
                        /\ (len p < 300)%nat).
  { exists posterior_2. split.
    - apply list_elem_of_In. simpl. auto.
    - unfold len. simpl. lia. }
  split; [exact H|].
  exact (resample_posteriors_too_few_rows [posterior_500; posterior_2]
           (IntCap 300) 300 (fun _ _ => 0%nat) H).
Defined.

(** The value left in [self.max_samples] is decided by the last event
    alone: it is the Python 2 minimum of its number of rows and the
    argument, whatever the other events and the former value. *)
Theorem resample_posteriors_max_samples_from_last
    (posteriors : list DataFrame) (last : DataFrame)
    (self_max_samples n : cap) (rnd : nat -> nat -> nat)
    (max_samples' : cap) (data : gmap string (list (list float))) :
  HyperparameterLikelihood.resample_posteriors (posteriors ++ [last])
    self_max_samples n rnd = Return (max_samples', data) ->
  max_samples' = py2_min (len last) n.
Proof.
  unfold HyperparameterLikelihood.resample_posteriors.
  rewrite foldl_app. cbn [foldl].
  destruct (posteriors ++ [last]) as [|first rest]; [discriminate|].
  destruct (HyperparameterLikelihood.sample_all _ _ _ _ _) as [data' | e];
    cbn [mbind py_bind]; [|discriminate].
  intros Heq. now injection Heq as <- _.
Qed.

Lemma resample_posteriors_max_samples_from_last_witness :
  exists (max_samples' : cap) (data : gmap string (list (list float))),
    HyperparameterLikelihood.resample_posteriors
      ([posterior_2] ++ [posterior_2]) (IntCap 1) (IntCap 2)
      (fun _ _ => 0%nat) = Return (max_samples', data)
    /\ max_samples' = py2_min (len posterior_2) (IntCap 2).
Proof.
  do 2 eexists.
  assert (H : HyperparameterLikelihood.resample_posteriors
                ([posterior_2] ++ [posterior_2]) (IntCap 1) (IntCap 2)
                (fun _ _ => 0%nat)
              = Return (IntCap 2,
                        {["mu" := [[fzero; fzero]; [fzero; fzero]]]}))
    by (vm_compute; reflexivity).
  split; [exact H|].
  exact (resample_posteriors_max_samples_from_last [posterior_2] posterior_2
           (IntCap 1) (IntCap 2) (fun _ _ => 0%nat) _ _ H).
Defined.

(** The statements of the constructor after the first one, on events
    that all have a row and the columns of the first event, of which
    there is at least one: whatever [max_samples] is given, every event
    contributes one sample, [n_posteriors] is 1 and
    [samples_per_posterior] is the number of events. *)
Theorem init_tail_one_sample_per_event
    (np_log : float -> float)
    (first : DataFrame) (rest : list DataFrame)
    (model : population_model) (sampling_prior : prior_object)
    (max_samples : cap) (rnd : nat -> nat -> nat) :
  columns first <> [] ->
  (forall p, p ∈ first :: rest ->
     (1 <= len p)%nat /\ forall k, k ∈ columns first -> k ∈ columns p) ->
  exists self : HyperparameterLikelihood.t,
    HyperparameterLikelihood.__init__tail np_log (first :: rest) model
      sampling_prior max_samples rnd = Return self
    /\ shaped (length (first :: rest)) 1
         (HyperparameterLikelihood.data self)
    /\ HyperparameterLikelihood.n_posteriors self = 1%nat
    /\ HyperparameterLikelihood.samples_per_posterior self
       = length (first :: rest).
Proof.
  intros Hcols Hall.
  unfold HyperparameterLikelihood.__init__tail,
    HyperparameterLikelihood.resample_posteriors.
  destruct (sample_all_shaped (first :: rest) NoCap rnd 0
              (list_to_map ((fun key => (key, [])) <$> columns first)) 0)
    as (data & Hrun & Hdom & Hshaped).
  { discriminate. }
  { apply initial_data_shaped. }
  { intros p Hp. destruct (Hall p Hp) as [Hr Hc]. split; [exact Hr|].
    intros k Hk. apply Hc. rewrite initial_data_dom in Hk.
    now apply elem_of_list_to_set in Hk. }
  rewrite Hrun. cbn [mbind py_bind].
  rewrite initial_data_dom in Hdom. cbn [rows_asked] in Hshaped.
  destruct ((map_to_list data).*2) as [|array arrays] eqn:Hvalues.
  { exfalso. apply fmap_nil_inv in Hvalues.
    apply map_to_list_empty_iff in Hvalues. subst data.
    rewrite dom_empty_L in Hdom.
    destruct (columns first) as [|c cols]; [now apply Hcols|].
    assert (Hc : c ∈ (list_to_set (c :: cols) : gset string))
      by (apply elem_of_list_to_set; now left).
    rewrite <- Hdom in Hc. now apply elem_of_empty in Hc. }
  assert (Harray : exists key, data !! key = Some array).
  { assert (Hin : array ∈ (map_to_list data).*2)
      by (rewrite Hvalues; now left).
    apply list_elem_of_fmap in Hin as ([key array'] & -> & Hin).
    exists key. now apply elem_of_map_to_list. }
  destruct Harray as [key Hkey].
  destruct (Hshaped key array Hkey) as [Hlen Hrows].
  eexists. split; [reflexivity|].
  cbn [HyperparameterLikelihood.data HyperparameterLikelihood.n_posteriors
       HyperparameterLikelihood.samples_per_posterior].
  split; [exact Hshaped|].
  destruct array as [|row array]; [discriminate Hlen|].
  apply Forall_cons in Hrows as [Hrow _].
  cbn [np_shape py_min py_max foldl]. rewrite Hrow, Hlen.
  cbn [length]. split; lia.
Qed.

Lemma init_tail_one_sample_per_event_witness :
  exists self : HyperparameterLikelihood.t,
    HyperparameterLikelihood.__init__tail example_log
      [posterior_500; posterior_300] example_model example_sampling_prior
      (IntCap 300) (fun _ _ => 0%nat) = Return self
    /\ shaped (length [posterior_500; posterior_300]) 1
         (HyperparameterLikelihood.data self)
    /\ HyperparameterLikelihood.n_posteriors self = 1%nat
    /\ HyperparameterLikelihood.samples_per_posterior self
       = length [posterior_500; posterior_300].
Proof.
  apply (init_tail_one_sample_per_event example_log posterior_500
           [posterior_300] example_model example_sampling_prior
           (IntCap 300) (fun _ _ => 0%nat)).
  - discriminate.
  - intros p Hp.
    apply elem_of_cons in Hp as [-> | Hp];
      [|apply list_elem_of_singleton in Hp as ->].
    + split; [|tauto].
      unfold len, posterior_500. cbn [rows].
      rewrite length_replicate. lia.
    + split; [|tauto].
      unfold len, posterior_300. cbn [rows].
      rewrite length_replicate. lia.
Defined.

(** ** Open strain data *)

Section OpenStrainDataFacts.
Variable S : Type.
Variable TimeSeries_read : string -> py S.
Variable first_time last_time : S -> R.
Variable crop : S -> R -> R -> py S.
Variable fetch_open_data : string -> R -> R -> py S.
Variable write : S -> string -> py unit.
Variable isfile : string -> bool.
Variable str : R -> string.

(** A raw data file that does not strictly contain the requested span
    is refused with a [ValueError]; nothing is cropped, fetched or
    written, and the cache is not looked at. *)
Theorem get_open_strain_data_raw_file_refused
    (name : string) (t1 t2 : R) (outdir : string) (cache : bool)
    (raw : string) (strain : S) :
  TimeSeries_read raw = Return strain ->
  t1 <= first_time strain \/ last_time strain <= t2 ->
  get_open_strain_data S TimeSeries_read first_time last_time crop
    fetch_open_data write isfile str name t1 t2 outdir cache (Some raw)
  = ([Log ("Using raw_data_file " +:+ raw); ReadFile raw],
     Raise (ValueError "Supplied file does not contain requested data")).
Proof.
  intros Hread Hspan. unfold get_open_strain_data. rewrite Hread.
  destruct (Rgt_dec t1 (first_time strain)) as [H1 | H1];
    [|reflexivity].
  destruct (Rlt_dec t2 (last_time strain)) as [H2 | H2]; [|reflexivity].
  exfalso. destruct Hspan; lra.
Qed.

(** Without a raw data file and without caching, the data is fetched
    and saved under the file name built from the arguments, whether or
    not that file exists already: it is never read. *)
Theorem get_open_strain_data_no_cache
    (name : string) (t1 t2 : R) (outdir : string) (strain : S) :
  fetch_open_data name t1 t2 = Return strain ->
  write strain
    (outdir +:+ "/" +:+ name +:+ "_" +:+ str t1 +:+ "_" +:+ str t2
     +:+ ".txt") = Return tt ->
  get_open_strain_data S TimeSeries_read first_time last_time crop
    fetch_open_data write isfile str name t1 t2 outdir false None
  = ([Log "Fetching open data ..."; FetchOpenData name t1 t2;
      Log ("Saving data to "
           +:+ (outdir +:+ "/" +:+ name +:+ "_" +:+ str t1 +:+ "_"
                +:+ str t2 +:+ ".txt"));
      WriteFile (outdir +:+ "/" +:+ name +:+ "_" +:+ str t1 +:+ "_"
                 +:+ str t2 +:+ ".txt")],
     Return strain).
Proof.
  intros Hfetch Hwrite. unfold get_open_strain_data.
  rewrite andb_false_r, Hfetch, Hwrite. reflexivity.
Qed.
End OpenStrainDataFacts.

Lemma get_open_strain_data_raw_file_refused_witness :
  get_open_strain_data (R * R) (fun _ => Return (10, 20)) fst snd
    (fun s _ _ => Return s) (fun _ _ _ => Return (0, 0))
    (fun _ _ => Return tt) (fun _ => true) (fun _ => "t")
    "H1" 5 15 "outdir" true (Some "raw.txt")
  = ([Log ("Using raw_data_file " +:+ "raw.txt"); ReadFile "raw.txt"],
     Raise (ValueError "Supplied file does not contain requested data")).
Proof.
  apply (get_open_strain_data_raw_file_refused (R * R)
           (fun _ => Return (10, 20)) fst snd (fun s _ _ => Return s)
           (fun _ _ _ => Return (0, 0)) (fun _ _ => Return tt)
           (fun _ => true) (fun _ => "t") "H1" 5 15 "outdir" true
           "raw.txt" (10, 20)).
  - reflexivity.
  - left. simpl. lra.
Defined.

Lemma get_open_strain_data_no_cache_witness :
  get_open_strain_data (R * R) (fun _ => Return (10, 20)) fst snd
    (fun s _ _ => Return s) (fun _ _ _ => Return (0, 0))
    (fun _ _ => Return tt) (fun _ => true) (fun _ => "t")
    "H1" 5 15 "outdir" false None
  = ([Log "Fetching open data ..."; FetchOpenData "H1" 5 15;
      Log ("Saving data to "
           +:+ ("outdir" +:+ "/" +:+ "H1" +:+ "_" +:+ "t" +:+ "_"
                +:+ "t" +:+ ".txt"));
      WriteFile ("outdir" +:+ "/" +:+ "H1" +:+ "_" +:+ "t" +:+ "_"
                 +:+ "t" +:+ ".txt")],
     Return (0, 0)).
Proof.
  apply (get_open_strain_data_no_cache (R * R)
           (fun _ => Return (10, 20)) fst snd (fun s _ _ => Return s)
           (fun _ _ _ => Return (0, 0)) (fun _ _ => Return tt)
           (fun _ => true) (fun _ => "t") "H1" 5 15 "outdir" (0, 0)).
  - reflexivity.
  - reflexivity.
Defined.
